(** * SileroVAD service: the per-session streaming state machine

    A shallow embedding of [SileroVADService] from
    [src/services/vad-service/vad_service.py]: session creation, the
    ingest operation [process_audio] (format dispatch, frame draining,
    dual-threshold classification, sliding-window voting, end-of-speech
    detection, one-shot flag read-out) and the error paths; then
    [reset_session] of that file and the sibling of [process_audio] in
    [vad_service_grpc.py].

    Modelling conventions.
    - Python floats (probabilities, millisecond timestamps) are rationals
      [Q]; NaN and infinities are outside the model, and so is rounding:
      [current_time - last_activity_time] is the exact difference here,
      the rounded one in the code.
    - [bytes] and [bytearray] are [list byte].
    - The [sessions] dict is a [gmap string Session]; the session dict
      object that the code mutates in place is threaded explicitly and
      written back to the map, also when the call raises.
    - The collaborators the service calls (the torch model, the wall clock,
      the Opus decoder) are an interface [Collaborators] over an abstract
      world state, so that a stateful scorer, a scripted clock or a failing
      decoder can all be plugged in. *)

From Stdlib Require Import QArith Lqa ZArith List String Ascii Bool Lia.
From Stdlib Require Import Strings.Byte.
From stdpp Require Import gmap strings list.
From Equations Require Import Equations.
From Equations.Prop Require Import Logic.

Close Scope Q_scope.
Local Open Scope nat_scope.

(** ** Data model *)

(** The dict built by [_get_or_create_session]; the fields carry the dict's
    keys. *)
Record Session := mkSession {
  audio_buffer : list byte;
  voice_window : list bool;
  have_voice : bool;
  last_is_voice : bool;
  last_activity_time : Q;
  voice_stop : bool;
}.

Definition set_audio_buffer (b : list byte) (s : Session) : Session :=
  mkSession b (voice_window s) (have_voice s) (last_is_voice s)
            (last_activity_time s) (voice_stop s).
Definition set_voice_window (v : list bool) (s : Session) : Session :=
  mkSession (audio_buffer s) v (have_voice s) (last_is_voice s)
            (last_activity_time s) (voice_stop s).
Definition set_have_voice (b : bool) (s : Session) : Session :=
  mkSession (audio_buffer s) (voice_window s) b (last_is_voice s)
            (last_activity_time s) (voice_stop s).
Definition set_last_is_voice (b : bool) (s : Session) : Session :=
  mkSession (audio_buffer s) (voice_window s) (have_voice s) b
            (last_activity_time s) (voice_stop s).
Definition set_last_activity_time (t : Q) (s : Session) : Session :=
  mkSession (audio_buffer s) (voice_window s) (have_voice s) (last_is_voice s)
            t (voice_stop s).
Definition set_voice_stop (b : bool) (s : Session) : Session :=
  mkSession (audio_buffer s) (voice_window s) (have_voice s) (last_is_voice s)
            (last_activity_time s) b.

(** [class VADResponse(BaseModel)]. *)
Module VADResponse.
Record t := mk {
  have_voice : bool;
  voice_stop : bool;
  speech_prob : option Q;
}.
End VADResponse.

(** The attributes of [SileroVADService] that [process_audio] reads or
    writes.  [opus_decoder] is [false] while the attribute is [None]. *)
Record SileroVADService := mkService {
  opus_decoder : bool;
  vad_threshold : Q;
  vad_threshold_low : Q;
  silence_threshold_ms : Z;
  frame_window_threshold : Z;
  sessions : gmap string Session;
}.

Definition set_opus_decoder (d : bool) (svc : SileroVADService) :=
  mkService d (vad_threshold svc) (vad_threshold_low svc)
            (silence_threshold_ms svc) (frame_window_threshold svc)
            (sessions svc).
Definition set_sessions (m : gmap string Session) (svc : SileroVADService) :=
  mkService (opus_decoder svc) (vad_threshold svc) (vad_threshold_low svc)
            (silence_threshold_ms svc) (frame_window_threshold svc) m.

(** [__init__] with its default arguments, once the model is loaded. *)
Definition default_service : SileroVADService :=
  mkService false (5 # 10)%Q (2 # 10)%Q 1000%Z 3%Z ∅.

(** What a call of [process_audio] does to its caller: it returns a
    response, or raises [HTTPException(status_code=500)]. *)
Inductive Outcome :=
| Returns (r : VADResponse.t)
| RaisesHTTP500.

(** ** Collaborators *)

(** The external objects [process_audio] calls.  Each call may change the
    world (the model is recurrent, the clock moves, the decoder keeps
    state).
    - [model_call w chunk sample_rate]: the scorer as the service calls
      it, from the bytes of the frame to the probability (lines 259-281:
      the tensor, [self.model(audio_tensor, sample_rate)] and the read-out
      of the number); [None] when it raises.
    - [time_ms w]: [time.time() * 1000].
    - [new_decoder w]: [opuslib_next.Decoder(16000, 1)]; [false] when it
      raises.
    - [opus_decode w data]: [self.opus_decoder.decode(data, 960)]; [None]
      when it raises [OpusError]. *)
Class Collaborators (World : Type) := {
  model_call : World -> list byte -> Z -> World * option Q;
  time_ms : World -> World * Q;
  new_decoder : World -> World * bool;
  opus_decode : World -> list byte -> World * option (list byte);
}.

(** ** Small helpers standing for Python built-ins *)

(** [str.lower] on the ASCII letters; other bytes are left alone. *)
Definition lower_ascii (c : ascii) : ascii :=
  let n := nat_of_ascii c in
  if (65 <=? n) && (n <=? 90) then ascii_of_nat (n + 32) else c.

Fixpoint lower (s : string) : string :=
  match s with
  | EmptyString => EmptyString
  | String c r => String (lower_ascii c) (lower r)
  end.

(** [l.count(True)]. *)
Definition count_true (l : list bool) : nat :=
  length (List.filter (fun b => b) l).

(** [l[-n:]] for a positive [n]. *)
Definition last_n {A} (n : nat) (l : list A) : list A :=
  drop (length l - n) l.

(** [a > b] on floats. *)
Definition Qgt_bool (a b : Q) : bool := negb (Qle_bool a b).

(** [512 * 2]: one analysis frame in bytes. *)
Definition frame_size_bytes : nat := 512 * 2.

(** ** The service *)

Definition fresh_session : Session :=
  mkSession [] [] false false 0%Q false.

(** [_get_or_create_session]: returns the service (with the session
    registered if it was not) and the session. *)
Definition _get_or_create_session (svc : SileroVADService) (session_id : string)
  : SileroVADService * Session :=
  match sessions svc !! session_id with
  | Some s => (svc, s)
  | None =>
      (set_sessions (<[session_id := fresh_session]> (sessions svc)) svc,
       fresh_session)
  end.

(** The dual-threshold decision of lines 286-293. *)
Definition classify (svc : SileroVADService) (prob : Q) (last : bool) : bool :=
  if Qle_bool (vad_threshold svc) prob then true
  else if Qle_bool prob (vad_threshold_low svc) then false
  else last.

(** Lines 297-301: append the decision, keep the last ten. *)
Definition push_window (is_voice : bool) (window : list bool) : list bool :=
  let window := window ++ [is_voice] in
  if 10 <? length window then last_n 10 window else window.

(** Lines 304-306. *)
Definition vote (svc : SileroVADService) (window : list bool) : bool :=
  (frame_window_threshold svc <=? Z.of_nat (count_true window))%Z.

Section WithCollaborators.
Context {World : Type} {collab : Collaborators World}.

(** Lines 308-315: the end-of-speech check of one frame. *)
Definition endpoint_check (svc : SileroVADService) (w : World)
    (session : Session) (client_have_voice : bool) : World * Session :=
  if have_voice session && negb client_have_voice then
    let '(w, current_time) := time_ms w in
    if Qgt_bool (last_activity_time session) 0 then
      let stop_duration := (current_time - last_activity_time session)%Q in
      if Qle_bool (inject_Z (silence_threshold_ms svc)) stop_duration
      then (w, set_voice_stop true session)
      else (w, session)
    else (w, session)
  else (w, session).

(** Lines 317-323: the state update of one frame. *)
Definition update_state (w : World) (session : Session)
    (client_have_voice : bool) : World * Session :=
  if client_have_voice then
    let session := set_have_voice true session in
    let '(w, now) := time_ms w in
    let session := set_last_activity_time now session in
    (w, set_voice_stop false session)
  else (w, set_have_voice false session).

(** Lines 286-323: what the loop body does once the frame has a
    probability. *)
Definition classify_frame (svc : SileroVADService) (w : World)
    (session : Session) (prob : Q) : World * Session * bool :=
  let is_voice := classify svc prob (last_is_voice session) in
  let session := set_last_is_voice is_voice session in
  let session :=
    set_voice_window (push_window is_voice (voice_window session)) session in
  let client_have_voice := vote svc (voice_window session) in
  let '(w, session) := endpoint_check svc w session client_have_voice in
  let '(w, session) := update_state w session client_have_voice in
  (w, session, client_have_voice).

(** One iteration of the [while] loop, lines 255-323.  The frame leaves
    the buffer before it is scored; [None] means that scoring raised. *)
Definition process_frame (svc : SileroVADService) (sample_rate : Z)
    (w : World) (session : Session) : World * Session * option (bool * Q) :=
  let chunk := take frame_size_bytes (audio_buffer session) in
  let session :=
    set_audio_buffer (drop frame_size_bytes (audio_buffer session)) session in
  match model_call w chunk sample_rate with
  | (w, None) => (w, session, None)
  | (w, Some prob) =>
      let '(w, session, client_have_voice) :=
        classify_frame svc w session prob in
      (w, session, Some (client_have_voice, prob))
  end.

Lemma endpoint_check_buffer svc w s c :
  audio_buffer (endpoint_check svc w s c).2 = audio_buffer s.
Proof.
  unfold endpoint_check.
  destruct (have_voice s && negb c); [|done].
  destruct (time_ms w) as [w' t].
  destruct (Qgt_bool _ _); [|done].
  by destruct (Qle_bool _ _).
Qed.

Lemma update_state_buffer w s c :
  audio_buffer (update_state w s c).2 = audio_buffer s.
Proof.
  unfold update_state. destruct c; [|done].
  by destruct (time_ms w).
Qed.

Lemma classify_frame_buffer svc w s p :
  audio_buffer (classify_frame svc w s p).1.2 = audio_buffer s.
Proof.
  unfold classify_frame.
  destruct (endpoint_check _ _ _ _) as [w1 s1] eqn:E1.
  destruct (update_state _ _ _) as [w2 s2] eqn:E2.
  cbn.
  change s2 with (w2, s2).2. rewrite <- E2, update_state_buffer.
  change s1 with (w1, s1).2. rewrite <- E1, endpoint_check_buffer.
  done.
Qed.

Lemma process_frame_buffer svc sr w s :
  audio_buffer (process_frame svc sr w s).1.2
  = drop frame_size_bytes (audio_buffer s).
Proof.
  unfold process_frame.
  destruct (model_call _ _ _) as [w1 [p|]]; [|done].
  destruct (classify_frame _ _ _ _) as [[w2 s2] c] eqn:E.
  cbn. change s2 with (w2, s2, c).1.2. rewrite <- E, classify_frame_buffer.
  done.
Qed.

#[local] Opaque frame_size_bytes.

(** The [while] loop of lines 254-323 with its two local variables.  It
    ends with [Some (client_have_voice, speech_prob)], or with [None] when
    a frame could not be scored.  It terminates because every iteration
    shortens the buffer. *)
Equations? frame_loop (svc : SileroVADService) (sample_rate : Z)
    (w : World) (session : Session)
    (client_have_voice : bool) (speech_prob : option Q)
  : World * Session * option (bool * option Q)
  by wf (length (audio_buffer session)) lt :=
  frame_loop svc sample_rate w session client_have_voice speech_prob
    with inspect (frame_size_bytes <=? length (audio_buffer session)) := {
    | exist _ false Hlen => (w, session, Some (client_have_voice, speech_prob));
    | exist _ true Hlen
        with inspect (process_frame svc sample_rate w session) := {
        | exist _ (w', session', None) Hframe => (w', session', None);
        | exist _ (w', session', Some (chv, prob)) Hframe =>
            frame_loop svc sample_rate w' session' chv
              (match speech_prob with
               | None => Some prob
               | Some _ => speech_prob
               end) } }.
Proof.
  pose proof (process_frame_buffer svc sample_rate w session) as Hb.
  rewrite Hframe in Hb. cbn [fst snd] in Hb. rewrite Hb, length_drop.
  apply Nat.leb_le in Hlen.
  assert (0 < frame_size_bytes) by (vm_compute; lia). lia.
Qed.

#[local] Transparent frame_size_bytes.

(** The response of the two early returns of lines 232-235 and 242-245. *)
Definition decode_failed (session : Session) : VADResponse.t :=
  VADResponse.mk (have_voice session) false None.

(** Lines 221-248: the format dispatch.  The result is the response of an
    early return, or the session with the new bytes in its buffer. *)
Definition buffer_input (svc : SileroVADService) (w : World)
    (session : Session) (audio_data : list byte) (audio_format : string)
  : SileroVADService * World * (VADResponse.t + Session) :=
  if String.eqb (lower audio_format) "opus" then
    match (if opus_decoder svc then (w, true) else new_decoder w) with
    | (w, false) => (svc, w, inl (decode_failed session))
    | (w, true) =>
        let svc := set_opus_decoder true svc in
        match opus_decode w audio_data with
        | (w, Some pcm_data) =>
            (svc, w,
             inr (set_audio_buffer (audio_buffer session ++ pcm_data) session))
        | (w, None) => (svc, w, inl (decode_failed session))
        end
    end
  else
    (svc, w,
     inr (set_audio_buffer (audio_buffer session ++ audio_data) session)).

(** The session object is shared with the [sessions] dict: what the call
    did to it is visible there afterwards. *)
Definition store (svc : SileroVADService) (session_id : string)
    (session : Session) : SileroVADService :=
  set_sessions (<[session_id := session]> (sessions svc)) svc.

(** Lines 325-335: read the end-of-speech flag, clear it when it was set,
    build the response. *)
Definition respond (session : Session) (client_have_voice : bool)
    (speech_prob : option Q) : Session * VADResponse.t :=
  let stop := voice_stop session in
  let session := if stop then set_voice_stop false session else session in
  (session, VADResponse.mk client_have_voice stop speech_prob).

(** [process_audio], lines 197-339. *)
Definition process_audio (svc : SileroVADService) (w : World)
    (audio_data : list byte) (audio_format : string)
    (sample_rate channels : Z) (session_id : string)
  : SileroVADService * World * Outcome :=
  let '(svc, session) := _get_or_create_session svc session_id in
  match buffer_input svc w session audio_data audio_format with
  | (svc, w, inl response) => (svc, w, Returns response)
  | (svc, w, inr session) =>
      match frame_loop svc sample_rate w session false None with
      | (w, session, None) => (store svc session_id session, w, RaisesHTTP500)
      | (w, session, Some (client_have_voice, speech_prob)) =>
          let '(session, response) :=
            respond session client_have_voice speech_prob in
          (store svc session_id session, w, Returns response)
      end
  end.

(** [reset_session]. *)
Definition reset_session (svc : SileroVADService) (session_id : string)
  : SileroVADService :=
  set_sessions (delete session_id (sessions svc)) svc.

(** *** Vocabulary for the statements *)

(** [frames_done n w s]: the world and the session after [n] iterations of
    the loop that all found a frame and scored it. *)
Fixpoint frames_done (svc : SileroVADService) (sr : Z) (n : nat)
    (w : World) (s : Session) : option (World * Session * bool * option Q) :=
  match n with
  | 0 => Some (w, s, false, None)
  | S n' =>
      match frames_done svc sr n' w s with
      | Some (w1, s1, _, sp) =>
          if frame_size_bytes <=? length (audio_buffer s1) then
            match process_frame svc sr w1 s1 with
            | (w2, s2, Some (c, p)) =>
                Some (w2, s2, c, match sp with None => Some p | Some _ => sp end)
            | (_, _, None) => None
            end
          else None
      | None => None
      end
  end.

(** The decode step of an opus call fails: the decoder cannot be built
    (lines 225-235) or [decode] raises [OpusError] (lines 237-245). *)
Definition decode_step_fails (svc : SileroVADService) (w : World)
    (audio_data : list byte) : Prop :=
  if opus_decoder svc then (opus_decode w audio_data).2 = None
  else
    match new_decoder w with
    | (w1, true) => (opus_decode w1 audio_data).2 = None
    | (_, false) => True
    end.

(** A call that drains no frame: it returns early on a decode failure, or
    the bytes it buffers leave less than one frame in the buffer. *)
Definition no_frame_drained (svc : SileroVADService) (w : World)
    (audio_data : list byte) (audio_format : string) (session_id : string)
  : Prop :=
  let '(svc0, s0) := _get_or_create_session svc session_id in
  match buffer_input svc0 w s0 audio_data audio_format with
  | (_, _, inl _) => True
  | (_, _, inr s1) => length (audio_buffer s1) < frame_size_bytes
  end.

(** The three ways a call can end. *)
Inductive call_end (svc : SileroVADService) (w : World)
    (audio_data : list byte) (audio_format : string) (sample_rate : Z)
    (session_id : string)
  : SileroVADService * World * Outcome -> Prop :=
| end_early svc0 s0 svc1 w1 r :
    _get_or_create_session svc session_id = (svc0, s0) ->
    buffer_input svc0 w s0 audio_data audio_format = (svc1, w1, inl r) ->
    call_end svc w audio_data audio_format sample_rate session_id
      (svc1, w1, Returns r)
| end_raise svc0 s0 svc1 w1 s1 w' s' :
    _get_or_create_session svc session_id = (svc0, s0) ->
    buffer_input svc0 w s0 audio_data audio_format = (svc1, w1, inr s1) ->
    frame_loop svc1 sample_rate w1 s1 false None = (w', s', None) ->
    call_end svc w audio_data audio_format sample_rate session_id
      (store svc1 session_id s', w', RaisesHTTP500)
| end_return svc0 s0 svc1 w1 s1 w' s' c sp :
    _get_or_create_session svc session_id = (svc0, s0) ->
    buffer_input svc0 w s0 audio_data audio_format = (svc1, w1, inr s1) ->
    frame_loop svc1 sample_rate w1 s1 false None = (w', s', Some (c, sp)) ->
    call_end svc w audio_data audio_format sample_rate session_id
      (store svc1 session_id (set_voice_stop false s'), w',
       Returns (VADResponse.mk c (voice_stop s') sp)).

End WithCollaborators.

(** ** A simulated world

    A scripted instance of the collaborators, to run the service on
    concrete streams: the scorer answers from a list (an exhausted list or
    a [None] entry is a scorer that raises) and each scored frame moves
    the clock by the 32 ms a 512-sample frame lasts at 16 kHz; the decoder
    answers from a list of packets in the same way. *)
Record Sim := mkSim {
  sim_now : Q;
  sim_scores : list (option Q);
  sim_decoder_available : bool;
  sim_packets : list (option (list byte));
}.

#[export] Instance sim_collaborators : Collaborators Sim := {|
  model_call w _ _ :=
    match sim_scores w with
    | [] => (w, None)
    | p :: rest =>
        (mkSim (sim_now w + 32) rest (sim_decoder_available w) (sim_packets w),
         p)
    end;
  time_ms w := (w, sim_now w);
  new_decoder w := (w, sim_decoder_available w);
  opus_decode w _ :=
    match sim_packets w with
    | [] => (w, None)
    | p :: rest =>
        (mkSim (sim_now w) (sim_scores w) (sim_decoder_available w) rest, p)
    end;
|}.

(** [n] bytes of silence. *)
Definition zeros (n : nat) : list byte := repeat x00 n.

(** A sequence of [process_audio] calls on one session, PCM at 16 kHz. *)
Fixpoint run_calls (svc : SileroVADService) (w : Sim)
    (session_id : string) (chunks : list (list byte))
  : SileroVADService * Sim * list Outcome :=
  match chunks with
  | [] => (svc, w, [])
  | c :: rest =>
      let '(svc, w, o) := process_audio svc w c "pcm" 16000 1 session_id in
      let '(svc, w, os) := run_calls svc w session_id rest in
      (svc, w, o :: os)
  end.

(** A stream for session ["a"], one 1024-byte frame per call, the clock at
    1000 ms before the first frame: three frames scored 0.9, then forty
    frames scored 0 (1280 ms of silence). *)
Definition stream_world : Sim :=
  mkSim 1000 (repeat (Some (9 # 10)%Q) 3 ++ repeat (Some 0%Q) 40) true [].

Definition stream_chunks : list (list byte) := repeat (zeros 1024) 43.

Definition silent (have : bool) (prob : Q) : Outcome :=
  Returns (VADResponse.mk have false (Some prob)).


(** Session ["a"] after one call with three frames scored 0.9. *)
Definition voiced : SileroVADService * Sim * Outcome :=
  process_audio default_service
    (mkSim 1000 (repeat (Some (9 # 10)%Q) 3) true [])
    (zeros 3072) "pcm" 16000 1 "a".

(** 100 ms of silence for a new session: three frames are drained and 128
    bytes stay buffered. *)
Definition first_call : SileroVADService * Sim * Outcome :=
  process_audio default_service (mkSim 1000 (repeat (Some 0%Q) 3) true [])
                (zeros 3200) "pcm" 16000 1 "a".

(** Session ["a"] after ten frames in one call, three scored 0.9 and seven
    scored 0: the window still holds three voiced frames, [have_voice] is
    [true] and the activity time is 1320 ms. *)
Definition ten_frames : SileroVADService * Sim * Outcome :=
  process_audio default_service
    (mkSim 1000 (repeat (Some (9 # 10)%Q) 3 ++ repeat (Some 0%Q) 7) true [])
    (zeros (10 * 1024)) "pcm" 16000 1 "a".

(** The next frame arrives when the clock shows 5000 ms. *)
Definition late_call : SileroVADService * Sim * Outcome :=
  process_audio ten_frames.1.1 (mkSim 5000 [Some 0%Q] true [])
                (zeros 1024) "pcm" 16000 1 "a".

(** After [ten_frames] two frames arrive at 5000 ms: the first is silent
    and raises the end-of-speech flag, scoring the second raises, so the
    call fails and the flag stays stored. *)
Definition pending_call : SileroVADService * Sim * Outcome :=
  process_audio ten_frames.1.1 (mkSim 5000 [Some 0%Q; None] true [])
                (zeros 2048) "pcm" 16000 1 "a".

(** Two frames for a new session, scoring the first raises. *)
Definition failed_call : SileroVADService * Sim * Outcome :=
  process_audio default_service (mkSim 1000 [None] true [])
                (zeros 2048) "pcm" 16000 1 "a".

(** ** The gRPC sibling *)

(** [vad_service_grpc.py] has a [SileroVADService] of its own, with its own
    model, clock and decoder.  Its functions are written out from that
    file; run with the collaborators of that service, [model_call] is the
    scorer as that file calls it (lines 93-100: the one-dimensional tensor
    and [.item()]). *)

(** What the gRPC [process_audio] does to its caller: it returns its dict
    (the three keys of [VADResponse]) or re-raises the scorer's exception
    (line 144 of [vad_service_grpc.py]). *)
Inductive GrpcOutcome :=
| GrpcReturns (r : VADResponse.t)
| GrpcRaises.

Section Grpc.
Context {World : Type} {collab : Collaborators World}.

(** One iteration of the [while] loop of [vad_service_grpc.py], lines
    91-134; [None] means that scoring raised. *)
Definition grpc_process_frame (svc : SileroVADService) (sample_rate : Z)
    (w : World) (session : Session) : World * Session * option (bool * Q) :=
  let chunk := take frame_size_bytes (audio_buffer session) in
  let session :=
    set_audio_buffer (drop frame_size_bytes (audio_buffer session)) session in
  match model_call w chunk sample_rate with
  | (w, None) => (w, session, None)
  | (w, Some prob) =>
      let is_voice :=
        if Qle_bool (vad_threshold svc) prob then true
        else if Qle_bool prob (vad_threshold_low svc) then false
        else last_is_voice session in
      let session := set_last_is_voice is_voice session in
      let session :=
        set_voice_window (voice_window session ++ [is_voice]) session in
      let session :=
        if 10 <? length (voice_window session)
        then set_voice_window (last_n 10 (voice_window session)) session
        else session in
      let client_have_voice :=
        (frame_window_threshold svc
         <=? Z.of_nat (count_true (voice_window session)))%Z in
      let '(w, session) :=
        if have_voice session && negb client_have_voice then
          let '(w, current_time) := time_ms w in
          if Qgt_bool (last_activity_time session) 0 then
            let stop_duration :=
              (current_time - last_activity_time session)%Q in
            if Qle_bool (inject_Z (silence_threshold_ms svc)) stop_duration
            then (w, set_voice_stop true session)
            else (w, session)
          else (w, session)
        else (w, session) in
      let '(w, session) :=
        if client_have_voice then
          let session := set_have_voice true session in
          let '(w, now) := time_ms w in
          let session := set_last_activity_time now session in
          (w, set_voice_stop false session)
        else (w, set_have_voice false session) in
      (w, session, Some (client_have_voice, prob))
  end.

Lemma grpc_process_frame_buffer svc sr w s :
  audio_buffer (grpc_process_frame svc sr w s).1.2
  = drop frame_size_bytes (audio_buffer s).
Proof.
  unfold grpc_process_frame. cbn zeta.
  destruct (model_call _ _ _) as [w1 [p|]]; [|done].
  set (d := if Qle_bool _ p then _ else _).
  destruct (10 <? _); cbn [have_voice last_activity_time voice_window
                           set_voice_window set_last_is_voice
                           set_audio_buffer];
    (destruct (have_voice s && negb _);
     [destruct (time_ms w1) as [w2 t2];
      destruct (Qgt_bool _ _); [destruct (Qle_bool _ (t2 - _))|]|]);
    (destruct (_ <=? _)%Z; [destruct (time_ms _)|]); done.
Qed.

#[local] Opaque frame_size_bytes.

(** The [while] loop of [vad_service_grpc.py], lines 91-134, with its two
    local variables; [None] when a frame could not be scored. *)
Equations? grpc_frame_loop (svc : SileroVADService) (sample_rate : Z)
    (w : World) (session : Session)
    (client_have_voice : bool) (speech_prob : option Q)
  : World * Session * option (bool * option Q)
  by wf (length (audio_buffer session)) lt :=
  grpc_frame_loop svc sample_rate w session client_have_voice speech_prob
    with inspect (frame_size_bytes <=? length (audio_buffer session)) := {
    | exist _ false Hlen => (w, session, Some (client_have_voice, speech_prob));
    | exist _ true Hlen
        with inspect (grpc_process_frame svc sample_rate w session) := {
        | exist _ (w', session', None) Hframe => (w', session', None);
        | exist _ (w', session', Some (chv, prob)) Hframe =>
            grpc_frame_loop svc sample_rate w' session' chv
              (match speech_prob with
               | None => Some prob
               | Some _ => speech_prob
               end) } }.
Proof.
  pose proof (grpc_process_frame_buffer svc sample_rate w session) as Hb.
  rewrite Hframe in Hb. cbn [fst snd] in Hb. rewrite Hb, length_drop.
  apply Nat.leb_le in Hlen.
  assert (0 < frame_size_bytes) by (vm_compute; lia). lia.
Qed.

#[local] Transparent frame_size_bytes.

(** [process_audio] of [vad_service_grpc.py], lines 62-144.  Its decoder is
    built by [__init__], so the opus branch decodes at once; and it
    returns the stored [voice_stop] without clearing it (line 138). *)
Definition grpc_process_audio (svc : SileroVADService) (w : World)
    (audio_data : list byte) (audio_format : string)
    (sample_rate channels : Z) (session_id : string)
  : SileroVADService * World * GrpcOutcome :=
  let '(svc, session) := _get_or_create_session svc session_id in
  let buffered :=
    if String.eqb (lower audio_format) "opus" then
      match opus_decode w audio_data with
      | (w, Some pcm_data) =>
          (w, inr (set_audio_buffer (audio_buffer session ++ pcm_data) session))
      | (w, None) => (w, inl (decode_failed session))
      end
    else
      (w, inr (set_audio_buffer (audio_buffer session ++ audio_data) session))
  in
  match buffered with
  | (w, inl response) => (svc, w, GrpcReturns response)
  | (w, inr session) =>
      match grpc_frame_loop svc sample_rate w session false None with
      | (w, session, None) => (store svc session_id session, w, GrpcRaises)
      | (w, session, Some (client_have_voice, speech_prob)) =>
          (store svc session_id session, w,
           GrpcReturns (VADResponse.mk client_have_voice (voice_stop session)
                                       speech_prob))
      end
  end.

End Grpc.

(** *** Vocabulary for the invariants *)

(** What every stored session satisfies: the window holds at most ten
    decisions and ends with [last_is_voice]; [have_voice] and [voice_stop]
    are not both set; and [have_voice] is only set when at least
    [frame_window_threshold] decisions of the window are voiced. *)
Definition session_inv (svc : SileroVADService) (s : Session) : Prop :=
  length (voice_window s) <= 10 /\
  (voice_window s = [] /\ last_is_voice s = false \/
   last (voice_window s) = Some (last_is_voice s)) /\
  (have_voice s = true -> voice_stop s = false) /\
  (have_voice s = true ->
   (frame_window_threshold svc <= Z.of_nat (count_true (voice_window s)))%Z).

Definition service_inv (svc : SileroVADService) : Prop :=
  map_Forall (fun _ s => session_inv svc s) (sessions svc).

(** Two sessions that differ at most in what the clock decides: the
    recorded activity time and the end-of-speech flag. *)
Definition same_but_time (s t : Session) : Prop :=
  audio_buffer s = audio_buffer t /\
  voice_window s = voice_window t /\
  have_voice s = have_voice t /\
  last_is_voice s = last_is_voice t.

(** Two services with the same thresholds. *)
Definition same_config (svc1 svc2 : SileroVADService) : Prop :=
  vad_threshold svc1 = vad_threshold svc2 /\
  vad_threshold_low svc1 = vad_threshold_low svc2 /\
  silence_threshold_ms svc1 = silence_threshold_ms svc2 /\
  frame_window_threshold svc1 = frame_window_threshold svc2.

(** The service states a run can be in: it starts without sessions, and
    goes on by calls of [process_audio] and [reset_session]. *)
Inductive reachable {World : Type} {collab : Collaborators World}
  : SileroVADService -> Prop :=
| reachable_init svc : sessions svc = ∅ -> reachable svc
| reachable_call svc (w : World) data fmt sr ch sid :
    reachable svc -> reachable (process_audio svc w data fmt sr ch sid).1.1
| reachable_reset svc sid :
    reachable svc -> reachable (reset_session svc sid).

(** *** More concrete runs *)

(** A stream of three voiced frames cut in two calls: 1500 bytes, then
    1600 bytes. *)
Definition cut_world : Sim := mkSim 1000 (repeat (Some (9 # 10)%Q) 3) true [].

Definition cut1 : SileroVADService * Sim * Outcome :=
  process_audio default_service cut_world (zeros 1500) "pcm" 16000 1 "a".

(** The second call starts when the clock shows 5000 ms; the scorer is
    where the first call left it. *)
Definition cut_late_world : Sim :=
  mkSim 5000 (repeat (Some (9 # 10)%Q) 2) true [].

Definition cut2 : SileroVADService * Sim * Outcome :=
  process_audio cut1.1.1 cut_late_world (zeros 1600) "pcm" 16000 1 "a".

(** The same stream in one call. *)
Definition cut_joined : SileroVADService * Sim * Outcome :=
  process_audio default_service cut_world (zeros 1500 ++ zeros 1600) "pcm"
                16000 1 "a".

(** A service whose decoder exists. *)
Definition grpc_service : SileroVADService :=
  set_opus_decoder true default_service.

(** The collaborators of a simulated gRPC service: the same scripted
    scorer, clock and packets; its decoder was built at start-up, so
    building one never fails. *)
Definition sim_grpc_collaborators : Collaborators Sim := {|
  model_call w _ _ :=
    match sim_scores w with
    | [] => (w, None)
    | p :: rest =>
        (mkSim (sim_now w + 32) rest (sim_decoder_available w) (sim_packets w),
         p)
    end;
  time_ms w := (w, sim_now w);
  new_decoder w := (w, true);
  opus_decode w _ :=
    match sim_packets w with
    | [] => (w, None)
    | p :: rest =>
        (mkSim (sim_now w) (sim_scores w) (sim_decoder_available w) rest, p)
    end;
|}.

(** The gRPC version polled with 100 bytes on the session of
    [pending_call], whose [voice_stop] is up. *)
Definition grpc_poll : SileroVADService * Sim * GrpcOutcome :=
  grpc_process_audio pending_call.1.1 pending_call.1.2 (zeros 100)
                     "pcm" 16000 1 "a".

(** ** Basic facts about the helpers *)

Lemma Qle_bool_false (a b : Q) : Qle_bool a b = false <-> (b < a)%Q.
Proof.
  split.
  - intros Hf. apply Qnot_le_lt. intros Hle.
    apply Qle_bool_iff in Hle. congruence.
  - intros Hlt. destruct (Qle_bool a b) eqn:E; [|done].
    apply Qle_bool_iff in E. exfalso. eapply Qlt_not_le; eauto.
Qed.

(** [l.count(True)] is the number of occurrences of [true] in [l]. *)
Lemma count_true_occurrences (l : list bool) :
  count_true l = count_occ Bool.bool_dec l true.
Proof.
  unfold count_true. induction l as [|[|] l IH]; cbn; [done| |done].
  by rewrite IH.
Qed.

Lemma push_window_eq (d : bool) (window : list bool) :
  push_window d window = drop (length window + 1 - 10) (window ++ [d]).
Proof.
  unfold push_window, last_n. rewrite length_app. cbn [length].
  destruct (10 <? length window + 1) eqn:E; [done|].
  apply Nat.ltb_ge in E.
  replace (length window + 1 - 10) with 0 by lia. done.
Qed.

Lemma push_window_length (d : bool) (window : list bool) :
  length (push_window d window) <= 10.
Proof.
  rewrite push_window_eq, length_drop, length_app. cbn [length]. lia.
Qed.

Section FrameFacts.
Context {World : Type} {collab : Collaborators World}.

(** The loop as the source reads: test, body, repeat. *)
Lemma frame_loop_eq svc sr w s chv sp :
  frame_loop svc sr w s chv sp =
  if frame_size_bytes <=? length (audio_buffer s) then
    match process_frame svc sr w s with
    | (w', s', None) => (w', s', None)
    | (w', s', Some (c, prob)) =>
        frame_loop svc sr w' s' c
          (match sp with None => Some prob | Some _ => sp end)
    end
  else (w, s, Some (chv, sp)).
Proof.
  funelim (frame_loop svc sr w s chv sp).
  - change ((frame_size_bytes <=? length (audio_buffer session)) = false) in Hlen.
    rewrite Hlen. reflexivity.
  - change ((frame_size_bytes <=? length (audio_buffer session)) = true) in Hlen.
    rewrite Hlen, Hframe. reflexivity.
  - change ((frame_size_bytes <=? length (audio_buffer session)) = true) in Hlen.
    rewrite Hlen, Hframe. reflexivity.
Qed.

Lemma endpoint_check_fields svc w s c :
  let s' := (endpoint_check svc w s c).2 in
  voice_window s' = voice_window s /\ have_voice s' = have_voice s /\
  last_is_voice s' = last_is_voice s /\
  last_activity_time s' = last_activity_time s.
Proof.
  unfold endpoint_check.
  destruct (have_voice s && negb c); [|done].
  destruct (time_ms w) as [w' t].
  destruct (Qgt_bool _ _); [|done].
  by destruct (Qle_bool _ _).
Qed.

Lemma update_state_fields w s c :
  let s' := (update_state w s c).2 in
  voice_window s' = voice_window s /\ have_voice s' = c /\
  last_is_voice s' = last_is_voice s /\
  (c = true -> voice_stop s' = false) /\
  (c = false -> voice_stop s' = voice_stop s /\
                last_activity_time s' = last_activity_time s).
Proof.
  unfold update_state. destruct c.
  - destruct (time_ms w) as [w' t]. cbn. repeat split; congruence.
  - cbn. repeat split; congruence.
Qed.

(** What one scored frame leaves in the session, field by field. *)
Lemma classify_frame_fields svc w s p :
  let r := classify_frame svc w s p in
  let d := classify svc p (last_is_voice s) in
  last_is_voice r.1.2 = d /\
  voice_window r.1.2 = push_window d (voice_window s) /\
  r.2 = vote svc (push_window d (voice_window s)) /\
  have_voice r.1.2 = r.2 /\
  (r.2 = true -> voice_stop r.1.2 = false).
Proof.
  unfold classify_frame. cbn zeta.
  set (d := classify svc p (last_is_voice s)).
  set (s1 := set_voice_window _ _).
  set (c := vote svc (voice_window s1)).
  pose proof (endpoint_check_fields svc w s1 c) as He.
  destruct (endpoint_check svc w s1 c) as [w2 s2].
  pose proof (update_state_fields w2 s2 c) as Hu.
  destruct (update_state w2 s2 c) as [w3 s3].
  cbn in *. destruct He as (He1 & He2 & He3 & He4).
  destruct Hu as (Hu1 & Hu2 & Hu3 & Hu4 & Hu5).
  repeat split; try congruence. exact Hu4.
Qed.

Lemma process_frame_scored svc sr w s w' s' c p :
  process_frame svc sr w s = (w', s', Some (c, p)) ->
  exists w1,
    model_call w (take frame_size_bytes (audio_buffer s)) sr = (w1, Some p) /\
    classify_frame svc w1
      (set_audio_buffer (drop frame_size_bytes (audio_buffer s)) s) p
    = (w', s', c).
Proof.
  unfold process_frame. intros Hp.
  destruct (model_call _ _ _) as [w1 [q|]] eqn:Em; [|done].
  destruct (classify_frame _ _ _ _) as [[w2 s2] c2] eqn:Ec.
  inversion Hp; subst. by exists w1.
Qed.

Lemma process_frame_raised svc sr w s w' s' :
  process_frame svc sr w s = (w', s', None) ->
  model_call w (take frame_size_bytes (audio_buffer s)) sr = (w', None) /\
  s' = set_audio_buffer (drop frame_size_bytes (audio_buffer s)) s.
Proof.
  unfold process_frame. intros Hp.
  destruct (model_call _ _ _) as [w1 [q|]] eqn:Em.
  - destruct (classify_frame _ _ _ _) as [[w2 s2] c2]. done.
  - by inversion Hp; subst.
Qed.

(** Induction along the iterations of the loop: the exit, the iteration
    whose scoring raises, and the iteration that goes round again. *)
Lemma frame_loop_induction svc sr
    (P : World -> Session -> bool -> option Q ->
         World * Session * option (bool * option Q) -> Prop) :
  (forall w s chv sp,
      length (audio_buffer s) < frame_size_bytes ->
      P w s chv sp (w, s, Some (chv, sp))) ->
  (forall w s chv sp w' s',
      frame_size_bytes <= length (audio_buffer s) ->
      process_frame svc sr w s = (w', s', None) ->
      P w s chv sp (w', s', None)) ->
  (forall w s chv sp w' s' c p,
      frame_size_bytes <= length (audio_buffer s) ->
      process_frame svc sr w s = (w', s', Some (c, p)) ->
      let sp' := match sp with None => Some p | Some _ => sp end in
      P w' s' c sp' (frame_loop svc sr w' s' c sp') ->
      P w s chv sp (frame_loop svc sr w' s' c sp')) ->
  forall w s chv sp, P w s chv sp (frame_loop svc sr w s chv sp).
Proof.
  intros Hexit Hraise Hstep w s.
  remember (length (audio_buffer s)) as n eqn:Hn.
  revert w s Hn. induction n as [n IH] using lt_wf_ind.
  intros w s -> chv sp. rewrite frame_loop_eq.
  destruct (frame_size_bytes <=? length (audio_buffer s)) eqn:E.
  - apply Nat.leb_le in E.
    destruct (process_frame svc sr w s) as [[w' s'] [[c p]|]] eqn:Ep.
    + apply Hstep; [done..|].
      apply (IH (length (audio_buffer s'))); [|done].
      pose proof (process_frame_buffer svc sr w s) as Hb.
      rewrite Ep in Hb. cbn in Hb. rewrite Hb, length_drop.
      unfold frame_size_bytes in *. lia.
    + by apply Hraise.
  - apply Nat.leb_gt in E. by apply Hexit.
Qed.

(** A loop that ends normally leaves less than one frame in the buffer. *)
Lemma frame_loop_drained svc sr w s chv sp w' s' r :
  frame_loop svc sr w s chv sp = (w', s', Some r) ->
  length (audio_buffer s') < frame_size_bytes.
Proof.
  revert w' s' r.
  apply (frame_loop_induction svc sr (fun w s chv sp res =>
    forall w' s' r, res = (w', s', Some r) ->
                    length (audio_buffer s') < frame_size_bytes)).
  - intros ? ? ? ? Hlt ? ? ? [= <- <- <-]. done.
  - intros; done.
  - intros ? ? ? ? ? ? ? ? _ _ sp' IH. exact IH.
Qed.

(** With less than one frame buffered the loop body never runs. *)
Lemma frame_loop_no_frame svc sr w s chv sp :
  length (audio_buffer s) < frame_size_bytes ->
  frame_loop svc sr w s chv sp = (w, s, Some (chv, sp)).
Proof.
  intros Hlt. rewrite frame_loop_eq.
  apply Nat.leb_gt in Hlt. by rewrite Hlt.
Qed.



Lemma frame_loop_after_frames svc sr n w s wn sn cn spn :
  frames_done svc sr n w s = Some (wn, sn, cn, spn) ->
  frame_loop svc sr w s false None = frame_loop svc sr wn sn cn spn.
Proof.
  revert wn sn cn spn. induction n as [|n IH]; intros wn sn cn spn Hn.
  - by inversion Hn.
  - cbn [frames_done] in Hn.
    destruct (frames_done svc sr n w s) as [[[[w1 s1] c1] sp1]|]; [|done].
    destruct (frame_size_bytes <=? length (audio_buffer s1)) eqn:E; [|done].
    destruct (process_frame svc sr w1 s1) as [[w2 s2] [[c p]|]] eqn:Ep; [|done].
    inversion Hn; subst.
    rewrite (IH _ _ _ _ eq_refl), (frame_loop_eq svc sr w1), E, Ep. done.
Qed.

(** *** Facts about the call as a whole *)

Lemma get_or_create_session_spec svc sid :
  let s0 := default fresh_session (sessions svc !! sid) in
  _get_or_create_session svc sid
  = (set_sessions (<[sid := s0]> (sessions svc)) svc, s0).
Proof.
  unfold _get_or_create_session.
  destruct (sessions svc !! sid) as [s|] eqn:E; cbn; [|done].
  rewrite insert_id by done. by destruct svc.
Qed.

Lemma buffer_input_sessions svc w s data fmt :
  sessions (buffer_input svc w s data fmt).1.1 = sessions svc.
Proof.
  unfold buffer_input.
  destruct (String.eqb _ _); [|done].
  destruct (if opus_decoder svc then _ else _) as [w1 [|]]; [|done].
  by destruct (opus_decode w1 data) as [w2 [pcm|]].
Qed.

Lemma buffer_input_decode_fails svc w s data fmt :
  lower fmt = "opus"%string ->
  decode_step_fails svc w data ->
  (buffer_input svc w s data fmt).2 = inl (decode_failed s).
Proof.
  unfold buffer_input, decode_step_fails. intros Hl Hf.
  apply String.eqb_eq in Hl. rewrite Hl.
  destruct (opus_decoder svc).
  - destruct (opus_decode w data) as [w2 [pcm|]]; cbn in *; done.
  - destruct (new_decoder w) as [w1 [|]]; [|done].
    destruct (opus_decode w1 data) as [w2 [pcm|]]; cbn in *; done.
Qed.

Lemma buffer_input_early svc w s data fmt svc1 w1 r :
  buffer_input svc w s data fmt = (svc1, w1, inl r) ->
  lower fmt = "opus"%string /\ r = decode_failed s.
Proof.
  unfold buffer_input.
  destruct (String.eqb _ _) eqn:E; [|done].
  apply String.eqb_eq in E. intros Hb. split; [done|].
  destruct (if opus_decoder svc then _ else _) as [w2 [|]].
  - destruct (opus_decode w2 data) as [w3 [pcm|]]; by inversion Hb.
  - by inversion Hb.
Qed.

Lemma buffer_input_buffered svc w s data fmt svc1 w1 s1 :
  buffer_input svc w s data fmt = (svc1, w1, inr s1) ->
  exists pcm, s1 = set_audio_buffer (audio_buffer s ++ pcm) s.
Proof.
  unfold buffer_input.
  destruct (String.eqb _ _).
  - destruct (if opus_decoder svc then _ else _) as [w2 [|]]; [|done].
    destruct (opus_decode w2 data) as [w3 [pcm|]]; [|done].
    intros [= <- <- <-]. by exists pcm.
  - intros [= <- <- <-]. by exists data.
Qed.

Lemma respond_spec s c sp :
  respond s c sp
  = (set_voice_stop false s, VADResponse.mk c (voice_stop s) sp).
Proof. unfold respond. by destruct s as [? ? ? ? ? []]. Qed.

Lemma lookup_store svc sid s : sessions (store svc sid s) !! sid = Some s.
Proof. cbn. apply lookup_insert_eq. Qed.

(** The call, with the session lookup and the flag read-out spelled out. *)
Lemma process_audio_eq svc w data fmt sr ch sid :
  let s0 := default fresh_session (sessions svc !! sid) in
  let svc0 := set_sessions (<[sid := s0]> (sessions svc)) svc in
  process_audio svc w data fmt sr ch sid =
  match buffer_input svc0 w s0 data fmt with
  | (svc1, w1, inl r) => (svc1, w1, Returns r)
  | (svc1, w1, inr s1) =>
      match frame_loop svc1 sr w1 s1 false None with
      | (w', s', None) => (store svc1 sid s', w', RaisesHTTP500)
      | (w', s', Some (c, sp)) =>
          (store svc1 sid (set_voice_stop false s'), w',
           Returns (VADResponse.mk c (voice_stop s') sp))
      end
  end.
Proof.
  intros s0 svc0. unfold process_audio.
  rewrite get_or_create_session_spec. fold s0 svc0.
  destruct (buffer_input svc0 w s0 data fmt) as [[svc1 w1] [r|s1]]; [done|].
  destruct (frame_loop svc1 sr w1 s1 false None) as [[w' s'] [[c sp]|]];
    [|done].
  by rewrite respond_spec.
Qed.

Lemma process_audio_end svc w data fmt sr ch sid :
  call_end svc w data fmt sr sid (process_audio svc w data fmt sr ch sid).
Proof.
  unfold process_audio.
  destruct (_get_or_create_session svc sid) as [svc0 s0] eqn:Eg.
  destruct (buffer_input svc0 w s0 data fmt) as [[svc1 w1] [r|s1]] eqn:Eb.
  - eapply end_early; eauto.
  - destruct (frame_loop svc1 sr w1 s1 false None)
      as [[w' s'] [[c sp]|]] eqn:El.
    + rewrite respond_spec. eapply end_return; eauto.
    + eapply end_raise; eauto.
Qed.

(** *** The end-of-speech check across frames *)

(** The check of lines 310-315 only looks at the clock when the stored
    [have_voice] is still [true]. *)
Lemma endpoint_check_skipped svc w s c :
  have_voice s = false -> endpoint_check svc w s c = (w, s).
Proof. unfold endpoint_check. by intros ->. Qed.

(** The first silent frame after voice: the flag goes up exactly when the
    clock is [silence_threshold_ms] or more past the recorded activity
    time; the stored [have_voice] drops in either case. *)
Lemma first_silent_frame svc w s w' s' :
  have_voice s = true -> voice_stop s = false ->
  (0 < last_activity_time s)%Q ->
  endpoint_check svc w s false = (w', s') ->
  (voice_stop s' = true <->
   (last_activity_time s + inject_Z (silence_threshold_ms svc)
    <= (time_ms w).2)%Q) /\
  have_voice (update_state w' s' false).2 = false.
Proof.
  unfold endpoint_check. intros -> Hstop Hpos. cbn.
  destruct (time_ms w) as [w1 t]. cbn.
  apply Qle_bool_false in Hpos. unfold Qgt_bool. rewrite Hpos. cbn.
  destruct (Qle_bool (inject_Z _) _) eqn:E;
    intros Heq; inversion Heq; subst; cbn.
  - apply Qle_bool_iff in E. split; [|done]. split; [intros _|done]. lra.
  - apply Qle_bool_false in E. split; [|done].
    split; [intros Ht; congruence|]. intros Hle. lra.
Qed.

(** Every later silent frame: [have_voice] is already [false], so the
    flag stays as it is whatever the clock says. *)
Lemma later_silent_frame svc sr w s w' s' p :
  have_voice s = false ->
  process_frame svc sr w s = (w', s', Some (false, p)) ->
  voice_stop s' = voice_stop s /\ have_voice s' = false /\
  last_activity_time s' = last_activity_time s.
Proof.
  intros Hv Hp.
  apply process_frame_scored in Hp as (w1 & _ & Hc).
  unfold classify_frame in Hc. cbn zeta in Hc.
  rewrite endpoint_check_skipped in Hc by done.
  destruct (vote _ _); cbn in Hc.
  - destruct (time_ms w1). by inversion Hc.
  - by inversion Hc; subst.
Qed.

End FrameFacts.

(** ** The claims *)

Section Claims.
Context {World : Type} {collab : Collaborators World}.

(** C3. Hysteresis classifier: when a frame is scored with probability [p],
    the decision the frame leaves in [last_is_voice] is [true] when
    [p >= HIGH], [false] when [p <= LOW], and the session's previous
    decision when [LOW < p < HIGH]; on the first frame of a fresh session
    the last case gives [false].  Stated for every service whose thresholds
    satisfy [LOW < HIGH], as the defaults 0.5 and 0.2 do. *)
Theorem hysteresis_classifier (svc : SileroVADService) (sample_rate : Z)
    (w w' : World) (s s' : Session) (c : bool) (p : Q) :
  (vad_threshold_low svc < vad_threshold svc)%Q ->
  process_frame svc sample_rate w s = (w', s', Some (c, p)) ->
  ((vad_threshold svc <= p)%Q -> last_is_voice s' = true) /\
  ((p <= vad_threshold_low svc)%Q -> last_is_voice s' = false) /\
  ((vad_threshold_low svc < p)%Q /\ (p < vad_threshold svc)%Q ->
     last_is_voice s' = last_is_voice s) /\
  ((vad_threshold_low svc < p)%Q /\ (p < vad_threshold svc)%Q ->
     s = set_audio_buffer (audio_buffer s) fresh_session ->
     last_is_voice s' = false).
Proof.
  intros Hcfg Hp.
  apply process_frame_scored in Hp as (w1 & _ & Hc).
  pose proof (classify_frame_fields svc w1
    (set_audio_buffer (drop frame_size_bytes (audio_buffer s)) s) p) as Hf.
  rewrite Hc in Hf. cbn in Hf. destruct Hf as (Hd & _).
  rewrite Hd. unfold classify.
  assert (Hamb : (vad_threshold_low svc < p)%Q /\ (p < vad_threshold svc)%Q ->
    (if Qle_bool (vad_threshold svc) p then true
     else if Qle_bool p (vad_threshold_low svc) then false
     else last_is_voice s) = last_is_voice s).
  { intros [Hlo Hhi].
    apply Qle_bool_false in Hhi. apply Qle_bool_false in Hlo.
    rewrite Hhi, Hlo. done. }
  repeat split.
  - intros Hhi. apply Qle_bool_iff in Hhi. rewrite Hhi. done.
  - intros Hlo.
    assert (Hlt : (p < vad_threshold svc)%Q) by (eapply Qle_lt_trans; eauto).
    apply Qle_bool_false in Hlt. apply Qle_bool_iff in Hlo.
    rewrite Hlt, Hlo. done.
  - exact Hamb.
  - intros Hp Hs. rewrite Hamb by done. rewrite Hs. done.
Qed.

(** C4. Voting window: after a frame is processed the window holds at most
    ten decisions, namely the old window with the new decision appended
    and the oldest entries dropped from the front, and the session-level
    candidate (also stored in [have_voice]) is [true] exactly when at
    least [frame_window_threshold] (3 by default) of the decisions now in
    the window are [true], counted as the occurrences of [true] in the
    list. *)
Theorem voting_window (svc : SileroVADService) (sample_rate : Z)
    (w w' : World) (s s' : Session) (c : bool) (p : Q) :
  process_frame svc sample_rate w s = (w', s', Some (c, p)) ->
  length (voice_window s') <= 10 /\
  voice_window s'
    = drop (length (voice_window s) + 1 - 10)
           (voice_window s ++ [last_is_voice s']) /\
  (c = true <->
   (frame_window_threshold svc
    <= Z.of_nat (count_occ Bool.bool_dec (voice_window s') true))%Z) /\
  have_voice s' = c.
Proof.
  intros Hp.
  apply process_frame_scored in Hp as (w1 & _ & Hc).
  pose proof (classify_frame_fields svc w1
    (set_audio_buffer (drop frame_size_bytes (audio_buffer s)) s) p) as Hf.
  rewrite Hc in Hf. cbn in Hf.
  destruct Hf as (Hd & Hw & Hv & Hh & _).
  rewrite <- count_true_occurrences.
  repeat split.
  - rewrite Hw. apply push_window_length.
  - rewrite Hw, Hd. apply push_window_eq.
  - intros ->. rewrite Hw. symmetry in Hv. unfold vote in Hv.
    by apply Z.leb_le in Hv.
  - intros Hle. rewrite Hv. unfold vote. rewrite <- Hw. by apply Z.leb_le.
  - done.
Qed.

(** C6. Decode-failure atomicity: an opus-format call whose decode step
    fails returns normally with the session's pre-call [have_voice],
    [voice_stop] reported [false] whatever the stored flag is, no
    probability, and the session (its buffer included) exactly as it was;
    a session that did not exist is registered in its fresh state. *)
Theorem decode_failure_atomicity (svc : SileroVADService) (w : World)
    (audio_data : list byte) (audio_format : string)
    (sample_rate channels : Z) (session_id : string) :
  lower audio_format = "opus"%string ->
  decode_step_fails svc w audio_data ->
  let s0 := default fresh_session (sessions svc !! session_id) in
  exists svc' w',
    process_audio svc w audio_data audio_format sample_rate channels session_id
    = (svc', w', Returns (VADResponse.mk (have_voice s0) false None)) /\
    sessions svc' !! session_id = Some s0 /\
    sessions svc' = <[session_id := s0]> (sessions svc) /\
    (forall s, sessions svc !! session_id = Some s ->
               sessions svc' = sessions svc).
Proof.
  intros Hfmt Hfail s0.
  pose proof (process_audio_eq svc w audio_data audio_format sample_rate
                channels session_id) as He.
  cbn zeta in He. fold s0 in He.
  set (svc0 := set_sessions _ svc) in He.
  assert (Hf0 : decode_step_fails svc0 w audio_data) by exact Hfail.
  pose proof (buffer_input_decode_fails svc0 w s0 _ _ Hfmt Hf0) as Hb.
  pose proof (buffer_input_sessions svc0 w s0 audio_data audio_format) as Hs.
  destruct (buffer_input svc0 w s0 audio_data audio_format)
    as [[svc1 w1] [r|s1]] eqn:Eb; [|done].
  cbn in Hb, Hs. injection Hb as ->.
  exists svc1, w1. rewrite He. rewrite Hs. cbn.
  repeat split.
  - apply lookup_insert_eq.
  - intros s Hl. subst s0. rewrite Hl. cbn. by apply insert_id.
Qed.

(** C5, as the code has it.  A call that returns after its frame loop
    leaves strictly fewer than [frame_size_bytes] (1024) bytes in the
    session's buffer; the only other normal return is the early return of
    an opus call whose decode step failed, which leaves the session, and so
    its buffer, as it was. *)
Theorem buffer_drained_on_return (svc svc' : SileroVADService) (w w' : World)
    (audio_data : list byte) (audio_format : string)
    (sample_rate channels : Z) (session_id : string) (r : VADResponse.t) :
  process_audio svc w audio_data audio_format sample_rate channels session_id
  = (svc', w', Returns r) ->
  exists s',
    sessions svc' !! session_id = Some s' /\
    (length (audio_buffer s') < frame_size_bytes \/
     (lower audio_format = "opus"%string /\
      s' = default fresh_session (sessions svc !! session_id) /\
      r = decode_failed s')).
Proof.
  intros Hp.
  pose proof (process_audio_end svc w audio_data audio_format sample_rate
                channels session_id) as He.
  rewrite Hp in He.
  inversion He as [svc0 s0 svc1 w1 r0 Hg Hb | |
                   svc0 s0 svc1 w1 s1 w2 s2 c sp Hg Hb Hl]; subst.
  - rewrite get_or_create_session_spec in Hg. injection Hg as <- <-.
    match type of Hb with buffer_input ?a _ ?b _ _ = _ =>
      pose proof (buffer_input_sessions a w b audio_data audio_format) as Hs
    end.
    rewrite Hb in Hs. cbn in Hs.
    apply buffer_input_early in Hb as [Hfmt ->].
    eexists. split; [rewrite Hs; apply lookup_insert_eq|].
    right. done.
  - exists (set_voice_stop false s2). split; [apply lookup_store|].
    left. cbn. eapply frame_loop_drained; eauto.
Qed.


(** C7, as the code has it.  When the first [k] frames of a call are scored
    and scoring the next one raises, the call fails with the processing
    error, and the session is left as those [k] frames made it, except
    that the frame that could not be scored has already left the buffer:
    nothing is rolled back, and the failing frame's bytes are gone. *)
Theorem score_failure_state (svc svc0 svc1 : SileroVADService)
    (w w1 wk wf : World) (audio_data : list byte) (audio_format : string)
    (sample_rate channels : Z) (session_id : string)
    (s0 s1 sk : Session) (k : nat) (ck : bool) (spk : option Q) :
  _get_or_create_session svc session_id = (svc0, s0) ->
  buffer_input svc0 w s0 audio_data audio_format = (svc1, w1, inr s1) ->
  frames_done svc1 sample_rate k w1 s1 = Some (wk, sk, ck, spk) ->
  frame_size_bytes <= length (audio_buffer sk) ->
  model_call wk (take frame_size_bytes (audio_buffer sk)) sample_rate
  = (wf, None) ->
  exists svc',
    process_audio svc w audio_data audio_format sample_rate channels session_id
    = (svc', wf, RaisesHTTP500) /\
    sessions svc' !! session_id
    = Some (set_audio_buffer (drop frame_size_bytes (audio_buffer sk)) sk).
Proof.
  intros Hg Hb Hk Hlen Hm.
  rewrite get_or_create_session_spec in Hg. injection Hg as <- <-.
  rewrite process_audio_eq. cbn zeta. rewrite Hb.
  rewrite (frame_loop_after_frames _ _ _ _ _ _ _ _ _ Hk), frame_loop_eq.
  apply Nat.leb_le in Hlen. rewrite Hlen.
  unfold process_frame. rewrite Hm.
  eexists. split; [done|]. apply lookup_store.
Qed.

(** C8. One-shot endpoint flag: a call that returns [voice_stop = true]
    leaves the stored flag [false], and any following call for the same
    session that drains no frame returns [voice_stop = false]. *)
Theorem one_shot_endpoint_flag (svc svc' : SileroVADService) (w w' : World)
    (audio_data : list byte) (audio_format : string)
    (sample_rate channels : Z) (session_id : string) (r : VADResponse.t) :
  process_audio svc w audio_data audio_format sample_rate channels session_id
  = (svc', w', Returns r) ->
  VADResponse.voice_stop r = true ->
  (exists s', sessions svc' !! session_id = Some s' /\ voice_stop s' = false) /\
  (forall w2 data2 format2 rate2 channels2,
      no_frame_drained svc' w2 data2 format2 session_id ->
      exists r2,
        (process_audio svc' w2 data2 format2 rate2 channels2 session_id).2
        = Returns r2 /\
        VADResponse.voice_stop r2 = false).
Proof.
  intros Hp Hstop.
  pose proof (process_audio_end svc w audio_data audio_format sample_rate
                channels session_id) as He.
  rewrite Hp in He.
  inversion He as [svc0 s0 svc1 w1 r0 Hg Hb | |
                   svc0 s0 svc1 w1 s1 w2 s2 c sp Hg Hb Hl]; subst.
  { apply buffer_input_early in Hb as [_ ->]. done. }
  assert (Hlk : sessions (store svc1 session_id (set_voice_stop false s2))
                !! session_id = Some (set_voice_stop false s2))
    by apply lookup_store.
  split; [by eexists|].
  intros w3 data2 format2 rate2 channels2 Hno.
  unfold no_frame_drained in Hno.
  rewrite get_or_create_session_spec in Hno.
  rewrite process_audio_eq. cbn zeta.
  rewrite Hlk in *. cbn [default] in *.
  destruct (buffer_input _ w3 _ data2 format2) as [[svc4 w4] [r4|s4]] eqn:Eb.
  - apply buffer_input_early in Eb as [_ ->]. by eexists.
  - apply buffer_input_buffered in Eb as [pcm ->].
    rewrite frame_loop_no_frame by done. by eexists.
Qed.

(** C2, as the code has it.  A call that buffers its bytes and finds no
    complete frame returns [have_voice = false] (the initial value of the
    local candidate, not the session's [have_voice]), the session's prior
    [voice_stop], and no probability; in the session only the buffer grows
    and the stored [voice_stop] is [false] afterwards. *)
Theorem zero_frame_call (svc svc0 svc1 : SileroVADService) (w w1 : World)
    (audio_data : list byte) (audio_format : string)
    (sample_rate channels : Z) (session_id : string) (s0 s1 : Session) :
  _get_or_create_session svc session_id = (svc0, s0) ->
  buffer_input svc0 w s0 audio_data audio_format = (svc1, w1, inr s1) ->
  length (audio_buffer s1) < frame_size_bytes ->
  exists svc',
    process_audio svc w audio_data audio_format sample_rate channels session_id
    = (svc', w1, Returns (VADResponse.mk false (voice_stop s0) None)) /\
    sessions svc' !! session_id
    = Some (mkSession (audio_buffer s1) (voice_window s0) (have_voice s0)
                      (last_is_voice s0) (last_activity_time s0) false) /\
    exists pcm, audio_buffer s1 = audio_buffer s0 ++ pcm.
Proof.
  intros Hg Hb Hlen.
  rewrite get_or_create_session_spec in Hg. injection Hg as <- <-.
  rewrite process_audio_eq. cbn zeta. rewrite Hb.
  rewrite frame_loop_no_frame by done.
  apply buffer_input_buffered in Hb as [pcm ->].
  eexists. split; [done|]. split; [apply lookup_store|]. by exists pcm.
Qed.


End Claims.

(** ** Concrete runs *)

(** C1 fails on the code.  On the stream above the candidate is [true] on
    frames 3 to 10, so the last recorded voice time is T = 1320 ms, and
    false from frame 11 on.  Frame 11 (time 1352) is the only silent frame
    on which the check of lines 310-315 runs, since line 323 then drops
    [have_voice]; frames 42 and 43 (times 2344 and 2376) are at or past
    T + 1000 and do not raise the flag: every one of the 43 calls returns
    [voice_stop = false], and the stored flag is [false] at the end. *)
Theorem endpoint_missed_on_stream :
  let res := run_calls default_service stream_world "a" stream_chunks in
  res.2 = repeat (silent false (9 # 10)) 2 ++ [silent true (9 # 10)]
          ++ repeat (silent true 0) 7 ++ repeat (silent false 0) 33 /\
  sessions res.1.1 !! "a"%string
  = Some (mkSession [] (repeat false 10) false false 1320 false) /\
  sim_now res.1.2 = 2376%Q.
Proof. vm_compute. repeat split. Qed.

(** C2 fails on the code.  Session ["a"] of [voiced] holds
    [have_voice = true] and an empty buffer: a call with 100 bytes drains
    no frame and returns [have_voice = false].  Session ["a"] of
    [pending_call] holds [voice_stop = true]: a call with 100 bytes drains
    no frame, returns [voice_stop = true] and leaves the stored flag
    [false]. *)
Lemma zero_frame_call_counterexample :
  (sessions voiced.1.1 !! "a"%string
   = Some (mkSession [] [true; true; true] true true 1096 false) /\
   (process_audio voiced.1.1 voiced.1.2 (zeros 100) "pcm" 16000 1 "a").2
   = Returns (VADResponse.mk false false None)) /\
  (pending_call.2 = RaisesHTTP500 /\
   sessions pending_call.1.1 !! "a"%string
   = Some (mkSession [] ([true; true] ++ repeat false 8)
                     false false 1320 true) /\
   (process_audio pending_call.1.1 pending_call.1.2 (zeros 100)
                  "pcm" 16000 1 "a").2
   = Returns (VADResponse.mk false true None) /\
   sessions (process_audio pending_call.1.1 pending_call.1.2 (zeros 100)
                           "pcm" 16000 1 "a").1.1 !! "a"%string
   = Some (mkSession (zeros 100) ([true; true] ++ repeat false 8)
                     false false 1320 false)).
Proof. vm_compute. done. Qed.

(** C5 fails on the code.  In [failed_call] 2048 bytes arrive for a new
    session and scoring the first frame raises: the call fails and the
    second frame, 1024 bytes, stays in the buffer.  An opus call that
    follows and whose packet does not decode returns normally with those
    1024 bytes still buffered. *)
Lemma buffer_drained_counterexample :
  let res2 :=
    process_audio failed_call.1.1 (mkSim 2000 [] true [None])
                  (zeros 40) "opus" 16000 1 "a" in
  failed_call.2 = RaisesHTTP500 /\
  sessions failed_call.1.1 !! "a"%string
  = Some (mkSession (zeros 1024) [] false false 0 false) /\
  res2.2 = Returns (VADResponse.mk false false None) /\
  sessions res2.1.1 !! "a"%string
  = Some (mkSession (zeros 1024) [] false false 0 false) /\
  ~ (length (zeros 1024) < frame_size_bytes).
Proof.
  split; [vm_compute; done|]. split; [vm_compute; done|].
  split; [vm_compute; done|]. split; [vm_compute; done|].
  unfold zeros, frame_size_bytes. rewrite repeat_length. lia.
Qed.

(** C7 fails on the code: of 2048 bytes the first frame is scored and
    scoring the second raises; the session is not the one the first frame
    left (which still has the second frame in its buffer): its buffer is
    empty. *)
Lemma score_failure_counterexample :
  let w0 := mkSim 1000 [Some (9 # 10)%Q; None] true [] in
  let after_frame_1 := mkSession (zeros 1024) [true] false true 0 false in
  let res := process_audio default_service w0 (zeros 2048) "pcm" 16000 1 "a" in
  frames_done default_service 16000 1 w0
    (set_audio_buffer (zeros 2048) fresh_session)
  = Some (mkSim 1032 [None] true [], after_frame_1, false, Some (9 # 10)%Q) /\
  (model_call (mkSim 1032 [None] true []) (zeros 1024) 16000).2 = None /\
  res.2 = RaisesHTTP500 /\
  sessions res.1.1 !! "a"%string
  = Some (mkSession [] [true] false true 0 false) /\
  sessions res.1.1 !! "a"%string <> Some after_frame_1.
Proof.
  split; [vm_compute; done|]. split; [done|]. split; [vm_compute; done|].
  assert (Hs : sessions (process_audio default_service
                 (mkSim 1000 [Some (9 # 10)%Q; None] true [])
                 (zeros 2048) "pcm" 16000 1 "a").1.1 !! "a"%string
               = Some (mkSession [] [true] false true 0 false))
    by (vm_compute; done).
  split; [exact Hs|]. cbn zeta. rewrite Hs. intros [=].
Qed.

(** *** The theorems at concrete inputs *)

(** C3 at a fresh session whose first frame scores 0.3, between the
    default thresholds. *)
Lemma hysteresis_classifier_witness :
  let s := set_audio_buffer (zeros 1024) fresh_session in
  let w := mkSim 1000 [Some (3 # 10)%Q] true [] in
  let w' := mkSim 1032 [] true [] in
  let s' := mkSession [] [false] false false 0 false in
  (vad_threshold_low default_service < vad_threshold default_service)%Q /\
  process_frame default_service 16000 w s = (w', s', Some (false, (3 # 10)%Q)) /\
  (((vad_threshold default_service <= 3 # 10)%Q -> last_is_voice s' = true) /\
   ((3 # 10 <= vad_threshold_low default_service)%Q ->
      last_is_voice s' = false) /\
   ((vad_threshold_low default_service < 3 # 10)%Q /\
    (3 # 10 < vad_threshold default_service)%Q ->
      last_is_voice s' = last_is_voice s) /\
   ((vad_threshold_low default_service < 3 # 10)%Q /\
    (3 # 10 < vad_threshold default_service)%Q ->
      s = set_audio_buffer (audio_buffer s) fresh_session ->
      last_is_voice s' = false)).
Proof.
  intros s w w' s'.
  assert (Hcfg : (vad_threshold_low default_service
                  < vad_threshold default_service)%Q) by reflexivity.
  assert (Hp : process_frame default_service 16000 w s
               = (w', s', Some (false, (3 # 10)%Q)))
    by (vm_compute; reflexivity).
  split; [exact Hcfg|]. split; [exact Hp|].
  exact (hysteresis_classifier default_service 16000 w w' s s' false
           (3 # 10)%Q Hcfg Hp).
Defined.

(** C4 at a full window with two voiced decisions: the frame scores 0.9,
    the oldest entry is evicted, the window then holds three voiced
    decisions and the candidate is [true]. *)
Lemma voting_window_witness :
  let s := mkSession (zeros 1024)
             ([false; true; true] ++ repeat false 7) false false 0 false in
  let w := mkSim 1000 [Some (9 # 10)%Q] true [] in
  let w' := mkSim 1032 [] true [] in
  let s' := mkSession [] ([true; true] ++ repeat false 7 ++ [true])
              true true 1032 false in
  process_frame default_service 16000 w s = (w', s', Some (true, (9 # 10)%Q)) /\
  (length (voice_window s') <= 10 /\
   voice_window s'
   = drop (length (voice_window s) + 1 - 10)
          (voice_window s ++ [last_is_voice s']) /\
   (true = true <->
    (frame_window_threshold default_service
     <= Z.of_nat (count_occ Bool.bool_dec (voice_window s') true))%Z) /\
   have_voice s' = true).
Proof.
  intros s w w' s'.
  assert (Hp : process_frame default_service 16000 w s
               = (w', s', Some (true, (9 # 10)%Q)))
    by (vm_compute; reflexivity).
  split; [exact Hp|].
  exact (voting_window default_service 16000 w w' s s' true (9 # 10)%Q Hp).
Defined.

(** C6 at an upper-case ["OPUS"] call whose packet does not decode, on a
    session that holds voice and a pending end-of-speech flag. *)
Lemma decode_failure_atomicity_witness :
  let s := mkSession (zeros 10) [true; true; true] true true 1096 true in
  let svc := set_sessions {[ "a"%string := s ]} default_service in
  let w := mkSim 2000 [] true [None] in
  lower "OPUS" = "opus"%string /\
  decode_step_fails svc w (zeros 40) /\
  exists svc' w',
    process_audio svc w (zeros 40) "OPUS" 16000 1 "a"
    = (svc', w', Returns (VADResponse.mk true false None)) /\
    sessions svc' !! "a"%string = Some s /\
    sessions svc' = <["a"%string := s]> (sessions svc) /\
    (forall s1, sessions svc !! "a"%string = Some s1 ->
                sessions svc' = sessions svc).
Proof.
  intros s svc w.
  assert (Hl : lower "OPUS" = "opus"%string) by reflexivity.
  assert (Hf : decode_step_fails svc w (zeros 40)) by reflexivity.
  split; [exact Hl|]. split; [exact Hf|].
  exact (decode_failure_atomicity svc w (zeros 40) "OPUS" 16000 1 "a" Hl Hf).
Defined.

(** C5 (as the code has it) on that call. *)
Lemma buffer_drained_on_return_witness :
  process_audio default_service (mkSim 1000 (repeat (Some 0%Q) 3) true [])
                (zeros 3200) "pcm" 16000 1 "a"
  = (first_call.1.1, first_call.1.2,
     Returns (VADResponse.mk false false (Some 0%Q))) /\
  exists s',
    sessions first_call.1.1 !! "a"%string = Some s' /\
    (length (audio_buffer s') < frame_size_bytes \/
     (lower "pcm" = "opus"%string /\
      s' = default fresh_session (sessions default_service !! "a"%string) /\
      VADResponse.mk false false (Some 0%Q) = decode_failed s')).
Proof.
  assert (Hp : process_audio default_service
                 (mkSim 1000 (repeat (Some 0%Q) 3) true [])
                 (zeros 3200) "pcm" 16000 1 "a"
               = (first_call.1.1, first_call.1.2,
                  Returns (VADResponse.mk false false (Some 0%Q))))
    by (vm_compute; reflexivity).
  split; [exact Hp|].
  exact (buffer_drained_on_return default_service first_call.1.1
           (mkSim 1000 (repeat (Some 0%Q) 3) true []) first_call.1.2
           (zeros 3200) "pcm" 16000 1 "a" _ Hp).
Defined.


(** C7 (as the code has it) on a call with two frames: the first is
    scored, scoring the second raises. *)
Lemma score_failure_state_witness :
  let w0 := mkSim 1000 [Some (9 # 10)%Q; None] true [] in
  let w1 := mkSim 1032 [None] true [] in
  let w2 := mkSim 1064 [] true [] in
  let svc0 := set_sessions {[ "a"%string := fresh_session ]} default_service in
  let s1 := set_audio_buffer (zeros 2048) fresh_session in
  let sk := mkSession (zeros 1024) [true] false true 0 false in
  _get_or_create_session default_service "a" = (svc0, fresh_session) /\
  buffer_input svc0 w0 fresh_session (zeros 2048) "pcm" = (svc0, w0, inr s1) /\
  frames_done svc0 16000 1 w0 s1 = Some (w1, sk, false, Some (9 # 10)%Q) /\
  frame_size_bytes <= length (audio_buffer sk) /\
  model_call w1 (take frame_size_bytes (audio_buffer sk)) 16000 = (w2, None) /\
  exists svc',
    process_audio default_service w0 (zeros 2048) "pcm" 16000 1 "a"
    = (svc', w2, RaisesHTTP500) /\
    sessions svc' !! "a"%string
    = Some (set_audio_buffer (drop frame_size_bytes (audio_buffer sk)) sk).
Proof.
  intros w0 w1 w2 svc0 s1 sk.
  assert (Hg : _get_or_create_session default_service "a"
               = (svc0, fresh_session)) by (vm_compute; reflexivity).
  assert (Hb : buffer_input svc0 w0 fresh_session (zeros 2048) "pcm"
               = (svc0, w0, inr s1)) by reflexivity.
  assert (Hk : frames_done svc0 16000 1 w0 s1
               = Some (w1, sk, false, Some (9 # 10)%Q))
    by (vm_compute; reflexivity).
  assert (Hlen : frame_size_bytes <= length (audio_buffer sk))
    by (unfold frame_size_bytes, sk, zeros; cbn [audio_buffer];
        rewrite repeat_length; lia).
  assert (Hm : model_call w1 (take frame_size_bytes (audio_buffer sk)) 16000
               = (w2, None)) by (vm_compute; reflexivity).
  repeat (split; [assumption|]).
  exact (score_failure_state default_service svc0 svc0 w0 w0 w1 w2
           (zeros 2048) "pcm" 16000 1 "a" fresh_session s1 sk 1 false
           (Some (9 # 10)%Q) Hg Hb Hk Hlen Hm).
Defined.

(** C8 on [late_call], which reports the end of speech. *)
Lemma one_shot_endpoint_flag_witness :
  let r := VADResponse.mk false true (Some 0%Q) in
  process_audio ten_frames.1.1 (mkSim 5000 [Some 0%Q] true [])
                (zeros 1024) "pcm" 16000 1 "a"
  = (late_call.1.1, late_call.1.2, Returns r) /\
  VADResponse.voice_stop r = true /\
  (exists s', sessions late_call.1.1 !! "a"%string = Some s' /\
              voice_stop s' = false) /\
  (forall (w2 : Sim) data2 format2 rate2 channels2,
      no_frame_drained late_call.1.1 w2 data2 format2 "a" ->
      exists r2,
        (process_audio late_call.1.1 w2 data2 format2 rate2 channels2 "a").2
        = Returns r2 /\
        VADResponse.voice_stop r2 = false).
Proof.
  intros r.
  assert (Hp : process_audio ten_frames.1.1 (mkSim 5000 [Some 0%Q] true [])
                              (zeros 1024) "pcm" 16000 1 "a"
               = (late_call.1.1, late_call.1.2, Returns r))
    by (vm_compute; reflexivity).
  assert (Hs : VADResponse.voice_stop r = true) by reflexivity.
  split; [exact Hp|]. split; [exact Hs|].
  exact (one_shot_endpoint_flag ten_frames.1.1 late_call.1.1
           (mkSim 5000 [Some 0%Q] true []) late_call.1.2
           (zeros 1024) "pcm" 16000 1 "a" r Hp Hs).
Defined.

(** C2 (as the code has it) on a 100-byte call for the session of
    [voiced]. *)
Lemma zero_frame_call_witness :
  let s0 := mkSession [] [true; true; true] true true 1096 false in
  let s1 := set_audio_buffer (zeros 100) s0 in
  _get_or_create_session voiced.1.1 "a" = (voiced.1.1, s0) /\
  buffer_input voiced.1.1 voiced.1.2 s0 (zeros 100) "pcm"
  = (voiced.1.1, voiced.1.2, inr s1) /\
  length (audio_buffer s1) < frame_size_bytes /\
  exists svc',
    process_audio voiced.1.1 voiced.1.2 (zeros 100) "pcm" 16000 1 "a"
    = (svc', voiced.1.2, Returns (VADResponse.mk false (voice_stop s0) None)) /\
    sessions svc' !! "a"%string
    = Some (mkSession (audio_buffer s1) (voice_window s0) (have_voice s0)
                      (last_is_voice s0) (last_activity_time s0) false) /\
    exists pcm, audio_buffer s1 = audio_buffer s0 ++ pcm.
Proof.
  intros s0 s1.
  assert (Hg : _get_or_create_session voiced.1.1 "a" = (voiced.1.1, s0))
    by (vm_compute; reflexivity).
  assert (Hb : buffer_input voiced.1.1 voiced.1.2 s0 (zeros 100) "pcm"
               = (voiced.1.1, voiced.1.2, inr s1)) by reflexivity.
  assert (Hlen : length (audio_buffer s1) < frame_size_bytes)
    by (vm_compute; lia).
  split; [exact Hg|]. split; [exact Hb|]. split; [exact Hlen|].
  exact (zero_frame_call voiced.1.1 voiced.1.1 voiced.1.1 voiced.1.2
           voiced.1.2 (zeros 100) "pcm" 16000 1 "a" s0 s1 Hg Hb Hlen).
Defined.


(** ** Further properties of the service *)

#[local] Opaque frame_size_bytes.

Section CallFacts.
Context {World : Type} {collab : Collaborators World}.

Lemma process_frame_config svc1 svc2 sr w s :
  same_config svc1 svc2 ->
  process_frame svc1 sr w s = process_frame svc2 sr w s.
Proof.
  intros (H1 & H2 & H3 & H4).
  unfold process_frame, classify_frame, classify, vote, endpoint_check.
  by rewrite H1, H2, H3, H4.
Qed.

Lemma frame_loop_config svc1 svc2 sr w s chv sp :
  same_config svc1 svc2 ->
  frame_loop svc1 sr w s chv sp = frame_loop svc2 sr w s chv sp.
Proof.
  intros Hc. symmetry.
  apply (frame_loop_induction svc1 sr (fun w s chv sp res =>
           frame_loop svc2 sr w s chv sp = res)).
  - intros. by apply frame_loop_no_frame.
  - intros w0 s0 chv0 sp0 w1 s1 Hlen Hp.
    rewrite frame_loop_eq. apply Nat.leb_le in Hlen. rewrite Hlen.
    by rewrite <- (process_frame_config svc1 svc2), Hp.
  - intros w0 s0 chv0 sp0 w1 s1 c p Hlen Hp sp1 IH.
    rewrite (frame_loop_eq svc2). apply Nat.leb_le in Hlen. rewrite Hlen.
    by rewrite <- (process_frame_config svc1 svc2), Hp.
Qed.

(** The format dispatch reads the service only for its decoder. *)
Lemma buffer_input_set_sessions m svc w s data fmt :
  buffer_input (set_sessions m svc) w s data fmt
  = (set_sessions m (buffer_input svc w s data fmt).1.1,
     (buffer_input svc w s data fmt).1.2,
     (buffer_input svc w s data fmt).2).
Proof.
  unfold buffer_input. cbn [opus_decoder set_sessions].
  destruct (String.eqb _ _); [|done].
  destruct (if opus_decoder svc then _ else _) as [w1 [|]]; [|done].
  by destruct (opus_decode w1 data) as [w2 [pcm|]].
Qed.

Lemma buffer_input_config svc w s data fmt :
  let svc1 := (buffer_input svc w s data fmt).1.1 in
  same_config svc svc1 /\
  (opus_decoder svc = true -> opus_decoder svc1 = true) /\
  (lower fmt <> "opus"%string -> opus_decoder svc1 = opus_decoder svc).
Proof.
  unfold buffer_input.
  destruct (String.eqb _ _) eqn:E.
  - apply String.eqb_eq in E.
    destruct (opus_decoder svc) eqn:Ed.
    + destruct (opus_decode w data) as [w2 [pcm|]]; cbn; by rewrite ?Ed.
    + destruct (new_decoder w) as [w1 [|]]; cbn; [|by rewrite ?Ed].
      destruct (opus_decode w1 data) as [w2 [pcm|]]; cbn; done.
  - cbn. done.
Qed.

Lemma buffer_input_decoder svcA svcB w s data fmt :
  opus_decoder svcA = opus_decoder svcB ->
  (buffer_input svcA w s data fmt).1.2 = (buffer_input svcB w s data fmt).1.2 /\
  (buffer_input svcA w s data fmt).2 = (buffer_input svcB w s data fmt).2.
Proof.
  unfold buffer_input. intros ->.
  destruct (String.eqb _ _); [|done].
  destruct (if opus_decoder svcB then _ else _) as [w1 [|]]; [|done].
  by destruct (opus_decode w1 data) as [w2 [pcm|]].
Qed.

Lemma same_config_sym svc1 svc2 : same_config svc1 svc2 -> same_config svc2 svc1.
Proof. intros (?&?&?&?). by repeat split. Qed.

Lemma same_config_trans svc1 svc2 svc3 :
  same_config svc1 svc2 -> same_config svc2 svc3 -> same_config svc1 svc3.
Proof. intros (?&?&?&?) (?&?&?&?). repeat split; congruence. Qed.

Lemma process_audio_sessions svc w data fmt sr ch sid :
  exists s',
    sessions (process_audio svc w data fmt sr ch sid).1.1
    = <[sid := s']> (sessions svc).
Proof.
  rewrite process_audio_eq. cbn zeta.
  set (s0 := default fresh_session (sessions svc !! sid)).
  set (svc0 := set_sessions _ svc).
  pose proof (buffer_input_sessions svc0 w s0 data fmt) as Hs.
  destruct (buffer_input svc0 w s0 data fmt) as [[svc1 w1] [r|s1]].
  - exists s0. exact Hs.
  - cbn in Hs.
    destruct (frame_loop svc1 sr w1 s1 false None) as [[w' s'] [[c sp]|]];
      eexists; cbn; rewrite Hs; cbn; apply insert_insert_eq.
Qed.

Lemma configuration_preserved_aux svc w data fmt sr ch sid :
  same_config svc (process_audio svc w data fmt sr ch sid).1.1.
Proof.
  rewrite process_audio_eq. cbn zeta.
  set (s0 := default fresh_session (sessions svc !! sid)).
  set (svc0 := set_sessions _ svc).
  pose proof (buffer_input_config svc0 w s0 data fmt) as [Hc _].
  destruct (buffer_input svc0 w s0 data fmt) as [[svc1 w1] [r|s1]];
    cbn in Hc; [exact Hc|].
  destruct (frame_loop svc1 sr w1 s1 false None) as [[w' s'] [[c sp]|]];
    exact Hc.
Qed.

Lemma buffer_input_pcm svc w s data fmt :
  lower fmt <> "opus"%string ->
  buffer_input svc w s data fmt
  = (svc, w, inr (set_audio_buffer (audio_buffer s ++ data) s)).
Proof.
  intros Hl. apply String.eqb_neq in Hl. unfold buffer_input. by rewrite Hl.
Qed.

Lemma frame_size_pos : 0 < frame_size_bytes.
Proof. apply Nat.ltb_lt. by vm_compute. Qed.

(** The loop takes whole frames from the front of the buffer, as many as
    there are. *)
Lemma frame_loop_remainder svc sr w s chv sp w' s' r :
  frame_loop svc sr w s chv sp = (w', s', Some r) ->
  audio_buffer s'
  = drop (frame_size_bytes * (length (audio_buffer s) / frame_size_bytes))
         (audio_buffer s).
Proof.
  revert w' s' r.
  apply (frame_loop_induction svc sr (fun w s chv sp res =>
    forall w' s' r, res = (w', s', Some r) ->
      audio_buffer s'
      = drop (frame_size_bytes * (length (audio_buffer s) / frame_size_bytes))
             (audio_buffer s))).
  - intros w0 s0 ? ? Hlt ? ? ? [= <- <- <-].
    rewrite Nat.div_small by done. by rewrite Nat.mul_0_r.
  - intros; done.
  - intros w0 s0 chv0 sp0 w1 s1 c p Hlen Hp sp1 IH w' s' r Hr.
    rewrite (IH _ _ _ Hr).
    pose proof (process_frame_buffer svc sr w0 s0) as Hb.
    rewrite Hp in Hb. cbn in Hb. rewrite Hb, drop_drop, length_drop.
    f_equal. pose proof frame_size_pos as Hpos.
    set (F := frame_size_bytes) in *. set (n := length (audio_buffer s0)) in *.
    replace (n / F) with (1 + (n - F) / F);
      [by rewrite Nat.mul_add_distr_l, Nat.mul_1_r|].
    replace n with (1 * F + (n - F)) at 2 by lia.
    rewrite Nat.div_add_l by lia. done.
Qed.

(** The probability the loop reports is the one it was given, or else the
    score of the first frame it drains. *)
Lemma frame_loop_speech_prob svc sr w s chv sp w' s' c sp' :
  frame_loop svc sr w s chv sp = (w', s', Some (c, sp')) ->
  sp' = match sp with
        | Some q => Some q
        | None =>
            if frame_size_bytes <=? length (audio_buffer s)
            then (model_call w (take frame_size_bytes (audio_buffer s)) sr).2
            else None
        end.
Proof.
  revert w' s' c sp'.
  apply (frame_loop_induction svc sr (fun w s chv sp res =>
    forall w' s' c sp', res = (w', s', Some (c, sp')) ->
      sp' = match sp with
            | Some q => Some q
            | None =>
                if frame_size_bytes <=? length (audio_buffer s)
                then (model_call w (take frame_size_bytes (audio_buffer s))
                                 sr).2
                else None
            end)).
  - intros w0 s0 ? sp0 Hlt ? ? ? ? [= <- <- <- <-].
    apply Nat.leb_gt in Hlt. rewrite Hlt. by destruct sp0.
  - intros; done.
  - intros w0 s0 chv0 sp0 w1 s1 c p Hlen Hp sp1 IH w' s' c' sp' Hr.
    specialize (IH _ _ _ _ Hr). subst sp1.
    apply process_frame_scored in Hp as (w2 & Hm & _).
    apply Nat.leb_le in Hlen. rewrite Hlen, Hm. cbn.
    destruct sp0; exact IH.
Qed.

(** *** The invariant of the stored sessions *)

Lemma last_push_window d window : last (push_window d window) = Some d.
Proof.
  rewrite push_window_eq, last_lookup, lookup_drop, length_drop, length_app.
  cbn [length].
  replace (length window + 1 - 10 + pred (length window + 1
             - (length window + 1 - 10))) with (length window + 0) by lia.
  by rewrite lookup_app_r, Nat.add_0_r, Nat.sub_diag by lia.
Qed.

Lemma session_inv_fresh svc : session_inv svc fresh_session.
Proof. repeat split; cbn; try done; try lia. by left. Qed.

Lemma session_inv_buffer svc b s :
  session_inv svc s -> session_inv svc (set_audio_buffer b s).
Proof. by intros ?. Qed.

Lemma session_inv_clear svc s :
  session_inv svc s -> session_inv svc (set_voice_stop false s).
Proof. intros (?&?&?&?). by repeat split. Qed.

Lemma session_inv_config svc1 svc2 s :
  same_config svc1 svc2 -> session_inv svc1 s -> session_inv svc2 s.
Proof.
  intros (_&_&_&Ht) (?&?&?&?). unfold session_inv. by rewrite <- Ht.
Qed.

(** A frame that is scored leaves the invariant behind whatever it found;
    a frame whose scoring raises only shortens the buffer. *)
Lemma process_frame_inv svc sr w s :
  session_inv svc s -> session_inv svc (process_frame svc sr w s).1.2.
Proof.
  intros Hinv.
  destruct (process_frame svc sr w s) as [[w' s'] [[c p]|]] eqn:Ep.
  - apply process_frame_scored in Ep as (w1 & _ & Hc).
    pose proof (classify_frame_fields svc w1
      (set_audio_buffer (drop frame_size_bytes (audio_buffer s)) s) p) as Hf.
    rewrite Hc in Hf. cbn [fst snd] in Hf.
    destruct Hf as (Hd & Hw & Hv & Hh & Hs).
    cbn [fst snd]. unfold session_inv. rewrite Hw, Hh, Hd.
    split; [apply push_window_length|].
    split; [right; apply last_push_window|].
    split; [exact Hs|].
    intros ->. symmetry in Hv. unfold vote in Hv. by apply Z.leb_le in Hv.
  - apply process_frame_raised in Ep as [_ ->]. exact Hinv.
Qed.

Lemma frame_loop_inv svc sr w s chv sp :
  session_inv svc s -> session_inv svc (frame_loop svc sr w s chv sp).1.2.
Proof.
  apply (frame_loop_induction svc sr (fun w s chv sp res =>
           session_inv svc s -> session_inv svc res.1.2)).
  - intros; done.
  - intros w0 s0 ? ? w1 s1 _ Hp Hinv.
    pose proof (process_frame_inv svc sr w0 s0 Hinv) as Hi.
    by rewrite Hp in Hi.
  - intros w0 s0 ? ? w1 s1 c p _ Hp sp1 IH Hinv. apply IH.
    pose proof (process_frame_inv svc sr w0 s0 Hinv) as Hi.
    by rewrite Hp in Hi.
Qed.

Lemma process_audio_inv svc w data fmt sr ch sid :
  service_inv svc -> service_inv (process_audio svc w data fmt sr ch sid).1.1.
Proof.
  intros Hinv.
  pose proof (configuration_preserved_aux svc w data fmt sr ch sid) as Hc.
  revert Hc. rewrite process_audio_eq. cbn zeta.
  set (s0 := default fresh_session (sessions svc !! sid)).
  set (svc0 := set_sessions _ svc).
  assert (Hs0 : session_inv svc s0).
  { subst s0. destruct (sessions svc !! sid) as [s|] eqn:E; cbn.
    - by apply (Hinv sid). - apply session_inv_fresh. }
  pose proof (buffer_input_sessions svc0 w s0 data fmt) as Hs.
  pose proof (buffer_input_config svc0 w s0 data fmt) as [Hc1 _].
  pose proof (buffer_input_buffered svc0 w s0 data fmt) as Hb.
  destruct (buffer_input svc0 w s0 data fmt) as [[svc1 w1] [r|s1]];
    cbn [fst snd] in *.
  - intros Hc i s Hl. rewrite Hs in Hl. cbn in Hl.
    apply (session_inv_config svc); [exact Hc|].
    destruct (decide (i = sid)) as [->|Hne].
    + rewrite lookup_insert_eq in Hl. by injection Hl as <-.
    + rewrite lookup_insert_ne in Hl by done. by apply (Hinv i).
  - destruct (Hb _ _ _ eq_refl) as [pcm ->].
    assert (Hc01 : same_config svc svc1) by exact Hc1.
    pose proof (frame_loop_inv svc1 sr w1
      (set_audio_buffer (audio_buffer s0 ++ pcm) s0) false None
      (session_inv_config _ _ _ Hc01 (session_inv_buffer _ _ _ Hs0))) as Hl.
    destruct (frame_loop svc1 sr w1 _ false None) as [[w' s'] [[c sp]|]];
      cbn [fst snd] in *; intros Hc i s Hi; cbn in Hi; rewrite Hs in Hi;
      cbn in Hi; rewrite insert_insert_eq in Hi;
      apply (session_inv_config svc); try exact Hc;
      (destruct (decide (i = sid)) as [->|Hne];
       [rewrite lookup_insert_eq in Hi; injection Hi as <-;
        apply (session_inv_config svc1); [by apply same_config_sym|];
        try apply session_inv_clear; exact Hl
       |rewrite lookup_insert_ne in Hi by done; by apply (Hinv i)]).
Qed.

(** When the loop ends with the candidate [true], the stored [have_voice]
    is [true] as well. *)
Lemma frame_loop_have_voice svc sr w s chv sp w' s' c sp' :
  (chv = true -> have_voice s = true) ->
  frame_loop svc sr w s chv sp = (w', s', Some (c, sp')) ->
  c = true -> have_voice s' = true.
Proof.
  revert w' s' c sp'.
  apply (frame_loop_induction svc sr (fun w s chv sp res =>
    forall w' s' c sp', (chv = true -> have_voice s = true) ->
      res = (w', s', Some (c, sp')) -> c = true -> have_voice s' = true)).
  - intros ? ? ? ? _ ? ? ? ? Hinv [= <- <- <- <-]. done.
  - intros; done.
  - intros w0 s0 chv0 sp0 w1 s1 c1 p1 _ Hp sp1 IH w' s' c sp' _.
    apply IH. intros ->.
    apply process_frame_scored in Hp as (w2 & _ & Hc).
    pose proof (classify_frame_fields svc w2
      (set_audio_buffer (drop frame_size_bytes (audio_buffer s0)) s0) p1) as Hf.
    rewrite Hc in Hf. cbn [fst snd] in Hf. by apply Hf.
Qed.

(** *** Cutting the stream into calls *)

(** The frame's work after scoring does not look at the buffer. *)
Lemma classify_frame_set_buffer svc w s p b :
  classify_frame svc w (set_audio_buffer b s) p
  = ((classify_frame svc w s p).1.1,
     set_audio_buffer b (classify_frame svc w s p).1.2,
     (classify_frame svc w s p).2).
Proof.
  unfold classify_frame, endpoint_check, update_state. cbn zeta.
  cbn [have_voice voice_window last_is_voice last_activity_time
       set_voice_window set_last_is_voice set_audio_buffer].
  set (c := vote svc _).
  destruct (have_voice s && negb c).
  - destruct (time_ms w) as [w1 t].
    destruct (Qgt_bool _ _);
      [destruct (Qle_bool _ _)|]; destruct c; try destruct (time_ms w1); done.
  - destruct c; try destruct (time_ms w); done.
Qed.

(** Bytes behind a complete frame wait: the frame is processed as without
    them and they stay at the end of the buffer. *)
Lemma process_frame_append svc sr w s tail :
  frame_size_bytes <= length (audio_buffer s) ->
  process_frame svc sr w (set_audio_buffer (audio_buffer s ++ tail) s)
  = ((process_frame svc sr w s).1.1,
     set_audio_buffer (audio_buffer (process_frame svc sr w s).1.2 ++ tail)
                      (process_frame svc sr w s).1.2,
     (process_frame svc sr w s).2).
Proof.
  intros Hlen. unfold process_frame.
  cbn [audio_buffer set_audio_buffer].
  rewrite take_app_le, drop_app_le by done.
  destruct (model_call w _ sr) as [w1 [p|]]; [|done].
  change (set_audio_buffer (drop frame_size_bytes (audio_buffer s) ++ tail)
            (set_audio_buffer (audio_buffer s ++ tail) s))
    with (set_audio_buffer (drop frame_size_bytes (audio_buffer s) ++ tail) s).
  rewrite (classify_frame_set_buffer svc w1 s p
             (drop frame_size_bytes (audio_buffer s) ++ tail)).
  rewrite (classify_frame_set_buffer svc w1 s p
             (drop frame_size_bytes (audio_buffer s))).
  by destruct (classify_frame svc w1 s p) as [[w2 s2] c].
Qed.

Lemma frame_loop_append svc sr tail w s chv sp :
  frame_loop svc sr w (set_audio_buffer (audio_buffer s ++ tail) s) chv sp
  = match frame_loop svc sr w s chv sp with
    | (w', s', None) =>
        (w', set_audio_buffer (audio_buffer s' ++ tail) s', None)
    | (w', s', Some (c, sp')) =>
        frame_loop svc sr w' (set_audio_buffer (audio_buffer s' ++ tail) s')
                   c sp'
    end.
Proof.
  apply (frame_loop_induction svc sr (fun w s chv sp res =>
    frame_loop svc sr w (set_audio_buffer (audio_buffer s ++ tail) s) chv sp
    = match res with
      | (w', s', None) =>
          (w', set_audio_buffer (audio_buffer s' ++ tail) s', None)
      | (w', s', Some (c, sp')) =>
          frame_loop svc sr w' (set_audio_buffer (audio_buffer s' ++ tail) s')
                     c sp'
      end)).
  - intros; done.
  - intros w0 s0 chv0 sp0 w1 s1 Hlen Hp.
    rewrite frame_loop_eq. cbn [audio_buffer set_audio_buffer].
    assert (Hle : (frame_size_bytes <=? length (audio_buffer s0 ++ tail))
                  = true)
      by (apply Nat.leb_le; rewrite length_app; lia).
    rewrite Hle, process_frame_append, Hp by done. done.
  - intros w0 s0 chv0 sp0 w1 s1 c p Hlen Hp sp1 IH.
    rewrite frame_loop_eq. cbn [audio_buffer set_audio_buffer].
    assert (Hle : (frame_size_bytes <=? length (audio_buffer s0 ++ tail))
                  = true)
      by (apply Nat.leb_le; rewrite length_app; lia).
    rewrite Hle, process_frame_append, Hp by done. cbn [fst snd].
    exact IH.
Qed.

Lemma set_opus_decoder_id svc :
  opus_decoder svc = true -> set_opus_decoder true svc = svc.
Proof. destruct svc. cbn. by intros ->. Qed.

(** When at least one frame is drained, the reported candidate is the
    stored [have_voice]. *)
Lemma frame_loop_candidate svc sr w s chv sp w' s' c sp' :
  chv = have_voice s \/ frame_size_bytes <= length (audio_buffer s) ->
  frame_loop svc sr w s chv sp = (w', s', Some (c, sp')) ->
  c = have_voice s'.
Proof.
  revert w' s' c sp'.
  apply (frame_loop_induction svc sr (fun w s chv sp res =>
    forall w' s' c sp',
      chv = have_voice s \/ frame_size_bytes <= length (audio_buffer s) ->
      res = (w', s', Some (c, sp')) -> c = have_voice s')).
  - intros ? ? ? ? Hlt ? ? ? ? [->|Hle] [= <- <- <- <-]; [done|lia].
  - intros; done.
  - intros w0 s0 chv0 sp0 w1 s1 c1 p1 _ Hp sp1 IH w' s' c sp' _.
    apply IH. left.
    apply process_frame_scored in Hp as (w2 & _ & Hc).
    pose proof (classify_frame_fields svc w2
      (set_audio_buffer (drop frame_size_bytes (audio_buffer s0)) s0) p1) as Hf.
    rewrite Hc in Hf. cbn [fst snd] in Hf. symmetry. by apply Hf.
Qed.

End CallFacts.

Section MoreProperties.
Context {World : Type} {collab : Collaborators World}.

(** X1. A call writes one session only: whatever its outcome, every other
    session of the service is afterwards as it was, and the session of the
    call exists. *)
Theorem other_sessions_untouched (svc : SileroVADService) (w : World)
    (audio_data : list byte) (audio_format : string)
    (sample_rate channels : Z) (session_id other_id : string) :
  other_id <> session_id ->
  let svc' := (process_audio svc w audio_data audio_format sample_rate
                             channels session_id).1.1 in
  sessions svc' !! other_id = sessions svc !! other_id /\
  is_Some (sessions svc' !! session_id).
Proof.
  intros Hne svc'.
  destruct (process_audio_sessions svc w audio_data audio_format sample_rate
              channels session_id) as [s' Hs].
  subst svc'. rewrite Hs. split.
  - by apply lookup_insert_ne.
  - rewrite lookup_insert_eq. by eexists.
Qed.

(** X2. A call never changes the thresholds of the service; a decoder that
    exists is kept, and a call whose format is not opus does not build
    one. *)
Theorem configuration_preserved (svc : SileroVADService) (w : World)
    (audio_data : list byte) (audio_format : string)
    (sample_rate channels : Z) (session_id : string) :
  let svc' := (process_audio svc w audio_data audio_format sample_rate
                             channels session_id).1.1 in
  same_config svc svc' /\
  (opus_decoder svc = true -> opus_decoder svc' = true) /\
  (lower audio_format <> "opus"%string ->
   opus_decoder svc' = opus_decoder svc).
Proof.
  rewrite process_audio_eq. cbn zeta.
  set (s0 := default fresh_session (sessions svc !! session_id)).
  set (svc0 := set_sessions _ svc).
  pose proof (buffer_input_config svc0 w s0 audio_data audio_format) as Hc.
  destruct (buffer_input svc0 w s0 audio_data audio_format)
    as [[svc1 w1] [r|s1]]; cbn in Hc.
  - exact Hc.
  - destruct (frame_loop svc1 sample_rate w1 s1 false None)
      as [[w' s'] [[c sp]|]]; exact Hc.
Qed.

Lemma process_audio_own_session (svc1 svc2 : SileroVADService) (w : World)
    (audio_data : list byte) (audio_format : string)
    (sample_rate channels : Z) (session_id : string) :
  same_config svc1 svc2 ->
  opus_decoder svc1 = opus_decoder svc2 ->
  sessions svc1 !! session_id = sessions svc2 !! session_id ->
  let r1 := process_audio svc1 w audio_data audio_format sample_rate
                          channels session_id in
  let r2 := process_audio svc2 w audio_data audio_format sample_rate
                          channels session_id in
  r1.2 = r2.2 /\ r1.1.2 = r2.1.2 /\
  sessions r1.1.1 !! session_id = sessions r2.1.1 !! session_id.
Proof.
  intros Hc Hd Hs r1 r2. subst r1 r2.
  rewrite !process_audio_eq. cbn zeta. rewrite Hs.
  set (s0 := default fresh_session (sessions svc2 !! session_id)).
  set (svcA := set_sessions _ svc1). set (svcB := set_sessions _ svc2).
  assert (HdAB : opus_decoder svcA = opus_decoder svcB) by exact Hd.
  assert (HcAB : same_config svcA svcB) by exact Hc.
  pose proof (buffer_input_decoder svcA svcB w s0 audio_data audio_format HdAB)
    as [Hw Hr].
  pose proof (buffer_input_config svcA w s0 audio_data audio_format) as [HcA _].
  pose proof (buffer_input_config svcB w s0 audio_data audio_format) as [HcB _].
  pose proof (buffer_input_sessions svcA w s0 audio_data audio_format) as HsA.
  pose proof (buffer_input_sessions svcB w s0 audio_data audio_format) as HsB.
  destruct (buffer_input svcA w s0 audio_data audio_format)
    as [[svcA1 wA] resA].
  destruct (buffer_input svcB w s0 audio_data audio_format)
    as [[svcB1 wB] resB].
  cbn in *. subst wB resB.
  destruct resA as [r|s1].
  - cbn. rewrite HsA, HsB. cbn. by rewrite !lookup_insert_eq.
  - rewrite (frame_loop_config svcA1 svcB1).
    2:{ eapply same_config_trans; [apply same_config_sym, HcA|].
        eapply same_config_trans; [apply HcAB|apply HcB]. }
    destruct (frame_loop svcB1 sample_rate wA s1 false None)
      as [[w' s'] [[c sp]|]]; cbn; by rewrite !lookup_insert_eq.
Qed.

(** X3. A call reads one session only: two services with the same
    thresholds and decoder that agree on the session of the call give the
    same outcome, the same world and the same stored session, whatever
    their other sessions are. *)
Theorem call_reads_own_session (svc1 svc2 : SileroVADService) (w : World)
    (audio_data : list byte) (audio_format : string)
    (sample_rate channels : Z) (session_id : string) :
  same_config svc1 svc2 ->
  opus_decoder svc1 = opus_decoder svc2 ->
  sessions svc1 !! session_id = sessions svc2 !! session_id ->
  let r1 := process_audio svc1 w audio_data audio_format sample_rate
                          channels session_id in
  let r2 := process_audio svc2 w audio_data audio_format sample_rate
                          channels session_id in
  r1.2 = r2.2 /\ r1.1.2 = r2.1.2 /\
  sessions r1.1.1 !! session_id = sessions r2.1.1 !! session_id.
Proof. apply process_audio_own_session. Qed.

(** X4. [reset_session] removes the session and nothing else; for an id
    that has no session it changes nothing, so a second reset is the same
    as one. *)
Theorem reset_session_spec (svc : SileroVADService) (session_id : string) :
  sessions (reset_session svc session_id) !! session_id = None /\
  (forall other_id, other_id <> session_id ->
     sessions (reset_session svc session_id) !! other_id
     = sessions svc !! other_id) /\
  (sessions svc !! session_id = None -> reset_session svc session_id = svc) /\
  reset_session (reset_session svc session_id) session_id
  = reset_session svc session_id /\
  same_config svc (reset_session svc session_id) /\
  opus_decoder (reset_session svc session_id) = opus_decoder svc.
Proof.
  unfold reset_session. cbn. repeat split.
  - apply lookup_delete_eq.
  - intros other_id Hne. by apply lookup_delete_ne.
  - intros Hn. rewrite delete_id by done. by destruct svc.
  - by rewrite delete_delete_eq.
Qed.

(** X5. After [reset_session] a call for the same id behaves as a call on
    a service that has no session at all: same outcome, same world, same
    stored session. *)
Theorem reset_then_call_is_fresh (svc : SileroVADService) (w : World)
    (audio_data : list byte) (audio_format : string)
    (sample_rate channels : Z) (session_id : string) :
  let r1 := process_audio (reset_session svc session_id) w audio_data
                          audio_format sample_rate channels session_id in
  let r2 := process_audio (set_sessions ∅ svc) w audio_data
                          audio_format sample_rate channels session_id in
  r1.2 = r2.2 /\ r1.1.2 = r2.1.2 /\
  sessions r1.1.1 !! session_id = sessions r2.1.1 !! session_id.
Proof.
  intros r1 r2.
  assert (Hc : same_config (reset_session svc session_id) (set_sessions ∅ svc))
    by (by repeat split).
  assert (Hl : sessions (reset_session svc session_id) !! session_id
               = sessions (set_sessions ∅ svc) !! session_id).
  { cbn. by rewrite lookup_delete_eq, lookup_empty. }
  pose proof (process_audio_own_session _ _ w audio_data audio_format
                sample_rate channels session_id Hc eq_refl Hl)
    as (H1 & H2 & H3).
  repeat split; [exact H1|exact H2|exact H3].
Qed.

(** X6. [_get_or_create_session] returns the stored session when there is
    one, leaving the service as it is, and registers a fresh session
    otherwise; afterwards the session is stored under the id, no other id
    is touched, and a second call changes nothing more. *)
Theorem get_or_create_session_idempotent (svc : SileroVADService)
    (session_id : string) :
  let svc1 := (_get_or_create_session svc session_id).1 in
  let s1 := (_get_or_create_session svc session_id).2 in
  _get_or_create_session svc1 session_id = (svc1, s1) /\
  sessions svc1 !! session_id = Some s1 /\
  (forall s, sessions svc !! session_id = Some s -> svc1 = svc /\ s1 = s) /\
  (sessions svc !! session_id = None -> s1 = fresh_session) /\
  (forall other_id, other_id <> session_id ->
     sessions svc1 !! other_id = sessions svc !! other_id).
Proof.
  unfold _get_or_create_session.
  destruct (sessions svc !! session_id) as [s|] eqn:E; cbn.
  - rewrite E. split; [done|]. split; [done|].
    split; [by intros s' [= <-]|]. split; done.
  - rewrite lookup_insert_eq. split; [done|]. split; [done|].
    split; [done|]. split; [done|].
    intros other_id Hne. by apply lookup_insert_ne.
Qed.

(** X7. Byte accounting: a call with a format other than opus that returns
    has taken whole frames from the front of the old buffer followed by
    the new bytes, as many as there are, and keeps the rest: what stays
    buffered is the tail after the last whole frame, of length the total
    modulo [frame_size_bytes]. *)
Theorem buffer_accounting (svc svc' : SileroVADService) (w w' : World)
    (audio_data : list byte) (audio_format : string)
    (sample_rate channels : Z) (session_id : string) (r : VADResponse.t) :
  lower audio_format <> "opus"%string ->
  process_audio svc w audio_data audio_format sample_rate channels session_id
  = (svc', w', Returns r) ->
  let s0 := default fresh_session (sessions svc !! session_id) in
  let stream := audio_buffer s0 ++ audio_data in
  exists s',
    sessions svc' !! session_id = Some s' /\
    audio_buffer s'
    = drop (frame_size_bytes * (length stream / frame_size_bytes)) stream /\
    length (audio_buffer s') = length stream mod frame_size_bytes.
Proof.
  intros Hfmt Hp s0 stream.
  rewrite process_audio_eq in Hp. cbn zeta in Hp.
  rewrite buffer_input_pcm in Hp by done. fold s0 in Hp.
  destruct (frame_loop _ sample_rate w _ false None)
    as [[w1 s1] [[c sp]|]] eqn:El; [|done].
  injection Hp as <- <- <-.
  apply frame_loop_remainder in El.
  cbn [audio_buffer set_audio_buffer] in El. fold stream in El.
  exists (set_voice_stop false s1). split; [apply lookup_store|].
  cbn [audio_buffer set_voice_stop]. split; [exact El|].
  by rewrite El, length_drop, Nat.Div0.mod_eq.
Qed.

(** X8. The reported probability is the score of the first frame of the
    call, that is of the first [frame_size_bytes] bytes of the old buffer
    followed by the new bytes, scored in the world the call starts in; it
    is [None] exactly when these are less than one frame. *)
Theorem speech_prob_first_frame (svc svc' : SileroVADService) (w w' : World)
    (audio_data : list byte) (audio_format : string)
    (sample_rate channels : Z) (session_id : string) (r : VADResponse.t) :
  lower audio_format <> "opus"%string ->
  process_audio svc w audio_data audio_format sample_rate channels session_id
  = (svc', w', Returns r) ->
  let s0 := default fresh_session (sessions svc !! session_id) in
  let stream := audio_buffer s0 ++ audio_data in
  (length stream < frame_size_bytes -> VADResponse.speech_prob r = None) /\
  (frame_size_bytes <= length stream ->
   exists p,
     VADResponse.speech_prob r = Some p /\
     (model_call w (take frame_size_bytes stream) sample_rate).2 = Some p).
Proof.
  intros Hfmt Hp s0 stream.
  rewrite process_audio_eq in Hp. cbn zeta in Hp.
  rewrite buffer_input_pcm in Hp by done. fold s0 in Hp.
  destruct (frame_loop _ sample_rate w _ false None)
    as [[w1 s1] [[c sp]|]] eqn:El; [|done].
  injection Hp as <- <- <-. cbn.
  pose proof El as Hsp. apply frame_loop_speech_prob in Hsp.
  cbn in Hsp. fold stream in Hsp. split.
  - intros Hlt. apply Nat.leb_gt in Hlt. by rewrite Hlt in Hsp.
  - intros Hle. pose proof Hle as Hle'. apply Nat.leb_le in Hle'.
    rewrite Hle' in Hsp.
    rewrite frame_loop_eq in El. cbn [audio_buffer set_audio_buffer] in El.
    fold stream in El. rewrite Hle' in El.
    destruct (process_frame _ sample_rate w _) as [[w2 s2] [[c2 p2]|]] eqn:Ep;
      [|done].
    apply process_frame_scored in Ep as (w3 & Hm & _).
    cbn in Hm. fold stream in Hm. rewrite Hm in Hsp. cbn in Hsp.
    exists p2. by rewrite Hm.
Qed.

(** X9. When the end-of-speech flag goes up: a scored frame raises a flag
    that was down only if the stored [have_voice] was [true], the frame's
    candidate is [false] and the recorded activity time is positive; the
    frame then drops [have_voice].  So from a session whose [have_voice]
    is [false], or that has recorded no activity, no frame raises the
    flag, whatever the clock shows. *)
Theorem endpoint_raised_only_after_voice (svc : SileroVADService)
    (sample_rate : Z) (w w' : World) (s s' : Session) (c : bool) (p : Q) :
  process_frame svc sample_rate w s = (w', s', Some (c, p)) ->
  voice_stop s = false ->
  voice_stop s' = true ->
  have_voice s = true /\ c = false /\ have_voice s' = false /\
  (0 < last_activity_time s)%Q.
Proof.
  intros Hp Hs Hs'.
  apply process_frame_scored in Hp as (w2 & Hm & Hc).
  unfold classify_frame in Hc. cbn zeta in Hc.
  set (c0 := vote svc _) in Hc.
  unfold endpoint_check, update_state in Hc.
  cbn [have_voice set_voice_window set_last_is_voice set_audio_buffer
       last_activity_time] in Hc.
  destruct c0; cbn in Hc.
  { rewrite andb_false_r in Hc. destruct (time_ms w2).
    inversion Hc; subst. done. }
  rewrite andb_true_r in Hc.
  destruct (have_voice s) eqn:Eh.
  2:{ inversion Hc; subst. cbn in Hs'. congruence. }
  destruct (time_ms w2) as [w3 t] eqn:Et.
  unfold Qgt_bool in Hc.
  destruct (Qle_bool (last_activity_time s) 0) eqn:E0; cbn in Hc.
  { inversion Hc; subst. cbn in Hs'. congruence. }
  apply Qle_bool_false in E0.
  destruct (Qle_bool (inject_Z _) _) eqn:E1.
  2:{ inversion Hc; subst. cbn in Hs'. congruence. }
  inversion Hc; subst. cbn. done.
Qed.

Lemma stored_sessions_invariant_aux (svc : SileroVADService) :
  reachable svc -> service_inv svc.
Proof.
  intros Hr.
  induction Hr as [svc He|svc w data fmt sr ch sid _ IH|svc sid _ IH].
  - unfold service_inv. rewrite He. apply map_Forall_empty.
  - by apply process_audio_inv.
  - unfold service_inv, reset_session. cbn [sessions set_sessions].
    apply map_Forall_delete.
    intros i s Hl. apply (session_inv_config svc); [by repeat split|].
    by apply (IH i).
Qed.

(** X10. In every reachable state of the service every stored session has
    a window of at most ten decisions that ends with [last_is_voice], does
    not hold [have_voice] and [voice_stop] together, and holds
    [have_voice] only with at least [frame_window_threshold] voiced
    decisions in its window; calls that fail keep this too. *)
Theorem stored_sessions_invariant (svc : SileroVADService)
    (session_id : string) (s : Session) :
  reachable svc ->
  sessions svc !! session_id = Some s ->
  length (voice_window s) <= 10 /\
  (voice_window s = [] /\ last_is_voice s = false \/
   last (voice_window s) = Some (last_is_voice s)) /\
  (have_voice s = true -> voice_stop s = false) /\
  (have_voice s = true ->
   (frame_window_threshold svc <= Z.of_nat (count_true (voice_window s)))%Z).
Proof.
  intros Hr Hl. by apply (stored_sessions_invariant_aux svc Hr session_id).
Qed.

(** X11. A call on a reachable service that reports [have_voice = true]
    leaves a session that agrees: its [have_voice] is [true], its
    [voice_stop] is [false] and at least [frame_window_threshold] of the
    decisions in its window are voiced. *)
Theorem reported_voice_is_stored (svc svc' : SileroVADService) (w w' : World)
    (audio_data : list byte) (audio_format : string)
    (sample_rate channels : Z) (session_id : string) (r : VADResponse.t) :
  reachable svc ->
  process_audio svc w audio_data audio_format sample_rate channels session_id
  = (svc', w', Returns r) ->
  VADResponse.have_voice r = true ->
  exists s',
    sessions svc' !! session_id = Some s' /\
    have_voice s' = true /\ voice_stop s' = false /\
    (frame_window_threshold svc
     <= Z.of_nat (count_true (voice_window s')))%Z.
Proof.
  intros Hr Hp Hv.
  assert (Hr' : reachable svc').
  { replace svc' with (process_audio svc w audio_data audio_format sample_rate
                         channels session_id).1.1 by (by rewrite Hp).
    by apply reachable_call. }
  assert (Hc : same_config svc svc').
  { replace svc' with (process_audio svc w audio_data audio_format sample_rate
                         channels session_id).1.1 by (by rewrite Hp).
    apply configuration_preserved_aux. }
  assert (Hs : exists s', sessions svc' !! session_id = Some s' /\
                          have_voice s' = true).
  { pose proof (process_audio_end svc w audio_data audio_format sample_rate
                  channels session_id) as He.
    rewrite Hp in He.
    inversion He as [svc0 s0 svc1 w1 r0 Hg Hb | |
                     svc0 s0 svc1 w1 s1 w2 s2 c sp Hg Hb Hl]; subst.
    - rewrite get_or_create_session_spec in Hg. injection Hg as <- <-.
      match type of Hb with buffer_input ?a _ ?b _ _ = _ =>
        pose proof (buffer_input_sessions a w b audio_data audio_format) as Hs
      end.
      rewrite Hb in Hs. cbn in Hs.
      apply buffer_input_early in Hb as [_ ->]. cbn in Hv.
      eexists. split; [rewrite Hs; apply lookup_insert_eq|exact Hv].
    - cbn in Hv. subst c.
      exists (set_voice_stop false s2). split; [apply lookup_store|].
      cbn. eapply frame_loop_have_voice; [|exact Hl|done]. done. }
  destruct Hs as (s' & Hl & Hh).
  destruct (stored_sessions_invariant_aux svc' Hr' session_id s' Hl)
    as (_ & _ & H3 & H4).
  exists s'. destruct Hc as (_&_&_&Ht). rewrite Ht. auto.
Qed.

(** X13. A call (format other than opus) that drains at least one frame
    and returns reports as [have_voice] the flag it leaves stored in the
    session, and leaves the stored [voice_stop] down. *)
Theorem response_matches_state (svc svc' : SileroVADService) (w w' : World)
    (audio_data : list byte) (audio_format : string)
    (sample_rate channels : Z) (session_id : string) (r : VADResponse.t) :
  lower audio_format <> "opus"%string ->
  process_audio svc w audio_data audio_format sample_rate channels session_id
  = (svc', w', Returns r) ->
  let s0 := default fresh_session (sessions svc !! session_id) in
  frame_size_bytes <= length (audio_buffer s0 ++ audio_data) ->
  exists s',
    sessions svc' !! session_id = Some s' /\
    have_voice s' = VADResponse.have_voice r /\
    voice_stop s' = false.
Proof.
  intros Hfmt Hp s0 Hlen.
  rewrite process_audio_eq in Hp. cbn zeta in Hp.
  rewrite buffer_input_pcm in Hp by done. fold s0 in Hp.
  destruct (frame_loop _ sample_rate w _ false None)
    as [[w1 s1] [[c sp]|]] eqn:El; [|done].
  injection Hp as <- <- <-.
  apply frame_loop_candidate in El; [|by right].
  exists (set_voice_stop false s1). split; [apply lookup_store|]. by cbn.
Qed.

(** X14. The Opus decoder is built on demand: an opus call on a service
    without decoder leaves one exactly when building it succeeded, whether
    or not the packet then decodes; after a failed build the next opus
    call tries again. *)
Theorem decoder_built_on_demand (svc : SileroVADService) (w : World)
    (audio_data : list byte) (audio_format : string)
    (sample_rate channels : Z) (session_id : string) :
  lower audio_format = "opus"%string ->
  opus_decoder svc = false ->
  opus_decoder (process_audio svc w audio_data audio_format sample_rate
                              channels session_id).1.1
  = (new_decoder w).2.
Proof.
  intros Hfmt Hd. rewrite process_audio_eq. cbn zeta.
  unfold buffer_input. apply String.eqb_eq in Hfmt. rewrite Hfmt.
  cbn [opus_decoder set_sessions]. rewrite Hd.
  destruct (new_decoder w) as [w1 [|]]; [|done].
  destruct (opus_decode w1 audio_data) as [w2 [pcm|]]; [|done].
  by destruct (frame_loop _ sample_rate w2 _ false None)
    as [[w3 s3] [[c sp]|]].
Qed.

Lemma grpc_frame_loop_eq svc sr w s chv sp :
  grpc_frame_loop svc sr w s chv sp =
  if frame_size_bytes <=? length (audio_buffer s) then
    match grpc_process_frame svc sr w s with
    | (w', s', None) => (w', s', None)
    | (w', s', Some (c, prob)) =>
        grpc_frame_loop svc sr w' s' c
          (match sp with None => Some prob | Some _ => sp end)
    end
  else (w, s, Some (chv, sp)).
Proof.
  funelim (grpc_frame_loop svc sr w s chv sp).
  - change ((frame_size_bytes <=? length (audio_buffer session)) = false) in Hlen.
    rewrite Hlen. reflexivity.
  - change ((frame_size_bytes <=? length (audio_buffer session)) = true) in Hlen.
    rewrite Hlen, Hframe. reflexivity.
  - change ((frame_size_bytes <=? length (audio_buffer session)) = true) in Hlen.
    rewrite Hlen, Hframe. reflexivity.
Qed.

Lemma grpc_frame_loop_no_frame svc sr w s chv sp :
  length (audio_buffer s) < frame_size_bytes ->
  grpc_frame_loop svc sr w s chv sp = (w, s, Some (chv, sp)).
Proof.
  intros Hlt. rewrite grpc_frame_loop_eq.
  apply Nat.leb_gt in Hlt. by rewrite Hlt.
Qed.

(** X16. In the gRPC version the end-of-speech flag is not cleared by
    reading it: a call (format other than opus) that returns leaves stored
    the [voice_stop] it reports, and a call that drains no frame reports
    the flag that was stored before it, so a flag that is up is reported
    by every such call. *)
Theorem grpc_flag_stays (svc svc' : SileroVADService) (w w' : World)
    (audio_data : list byte) (audio_format : string)
    (sample_rate channels : Z) (session_id : string) (r : VADResponse.t) :
  lower audio_format <> "opus"%string ->
  grpc_process_audio svc w audio_data audio_format sample_rate channels
                     session_id
  = (svc', w', GrpcReturns r) ->
  let s0 := default fresh_session (sessions svc !! session_id) in
  (exists s', sessions svc' !! session_id = Some s' /\
              voice_stop s' = VADResponse.voice_stop r) /\
  (length (audio_buffer s0 ++ audio_data) < frame_size_bytes ->
   VADResponse.voice_stop r = voice_stop s0 /\
   sessions svc' !! session_id
   = Some (set_audio_buffer (audio_buffer s0 ++ audio_data) s0)).
Proof.
  intros Hfmt Hp s0. unfold grpc_process_audio in Hp.
  rewrite get_or_create_session_spec in Hp. fold s0 in Hp.
  apply String.eqb_neq in Hfmt. rewrite Hfmt in Hp.
  destruct (grpc_frame_loop _ sample_rate w _ false None)
    as [[w1 s1] [[c sp]|]] eqn:El; [|done].
  injection Hp as <- <- <-. split.
  - exists s1. split; [apply lookup_store|done].
  - intros Hlt. rewrite grpc_frame_loop_no_frame in El by done.
    injection El as <- <- <- <-. split; [done|apply lookup_store].
Qed.

End MoreProperties.

(** *** The two services side by side *)

Section TwoServices.
Context {World : Type}.

(** [grpc] are the collaborators of the gRPC service, [http] those of the
    HTTP service. *)
Variables grpc http : Collaborators World.
Variable sample_rate : Z.

(** The two files call the scorer differently; here the two calls give
    the same number on every frame, and the clocks and decoders agree. *)
Hypothesis same_model_call : forall w chunk,
  @model_call World grpc w chunk sample_rate
  = @model_call World http w chunk sample_rate.
Hypothesis same_time_ms : forall w, @time_ms World grpc w = @time_ms World http w.
Hypothesis same_opus_decode : forall w data,
  @opus_decode World grpc w data = @opus_decode World http w data.

(** The loop body of the gRPC file does to the session what lines 255-323
    of the HTTP file do. *)
Lemma grpc_process_frame_agrees svc w s :
  @grpc_process_frame World grpc svc sample_rate w s
  = @process_frame World http svc sample_rate w s.
Proof.
  unfold grpc_process_frame, process_frame, classify_frame, endpoint_check,
    update_state, classify, push_window, vote. cbn zeta.
  rewrite same_model_call.
  destruct (@model_call World http _ _ _) as [w1 [p|]]; [|done].
  set (d := if Qle_bool _ p then _ else _).
  cbn [have_voice last_activity_time voice_window last_is_voice
       set_voice_window set_last_is_voice set_audio_buffer].
  destruct (10 <? _);
    cbn [have_voice last_activity_time voice_window last_is_voice
         set_voice_window set_last_is_voice set_audio_buffer];
    (destruct (have_voice s && negb _);
     [rewrite same_time_ms;
      destruct (@time_ms World http w1) as [w2 t2];
      destruct (Qgt_bool _ _); [destruct (Qle_bool _ (t2 - _))|]|]);
    (destruct (_ <=? _)%Z;
     [rewrite same_time_ms; destruct (@time_ms World http _)|]); done.
Qed.

Lemma grpc_frame_loop_agrees svc w s chv sp :
  @grpc_frame_loop World grpc svc sample_rate w s chv sp
  = @frame_loop World http svc sample_rate w s chv sp.
Proof.
  apply (@frame_loop_induction World http svc sample_rate
           (fun w s chv sp res =>
              @grpc_frame_loop World grpc svc sample_rate w s chv sp = res)).
  - intros. by apply grpc_frame_loop_no_frame.
  - intros w0 s0 chv0 sp0 w1 s1 Hlen Hp.
    rewrite grpc_frame_loop_eq. apply Nat.leb_le in Hlen. rewrite Hlen.
    by rewrite grpc_process_frame_agrees, Hp.
  - intros w0 s0 chv0 sp0 w1 s1 c p Hlen Hp sp1 IH.
    rewrite grpc_frame_loop_eq. apply Nat.leb_le in Hlen. rewrite Hlen.
    by rewrite grpc_process_frame_agrees, Hp.
Qed.

(** X15. The gRPC version against the HTTP version, each with its own
    collaborators, when the two ways of calling the scorer give the same
    number on every frame and the clocks and decoders agree, on a service
    that has its decoder (the gRPC one always has): for the same call they
    leave the same world; both raise or both return; when they return the
    responses are equal and the stored sessions differ only in
    [voice_stop], which the HTTP version has cleared and the gRPC version
    has not; when they raise the services are equal. *)
Theorem grpc_against_http (svc : SileroVADService) (w : World)
    (audio_data : list byte) (audio_format : string)
    (channels : Z) (session_id : string) :
  opus_decoder svc = true ->
  let g := @grpc_process_audio World grpc svc w audio_data audio_format
                               sample_rate channels session_id in
  let h := @process_audio World http svc w audio_data audio_format
                          sample_rate channels session_id in
  g.1.2 = h.1.2 /\
  match g.2, h.2 with
  | GrpcReturns rg, Returns rh =>
      rg = rh /\
      exists s,
        sessions g.1.1 !! session_id = Some s /\
        sessions h.1.1 !! session_id
        = Some (if VADResponse.voice_stop rh then set_voice_stop false s
                else s)
  | GrpcRaises, RaisesHTTP500 => g.1.1 = h.1.1
  | _, _ => False
  end.
Proof.
  intros Hd g h. subst g h.
  rewrite process_audio_eq. unfold grpc_process_audio.
  rewrite get_or_create_session_spec. cbn zeta.
  set (s0 := default fresh_session (sessions svc !! session_id)).
  set (svc0 := set_sessions _ svc).
  assert (Hd0 : opus_decoder svc0 = true) by exact Hd.
  unfold buffer_input. rewrite Hd0, (set_opus_decoder_id svc0 Hd0).
  assert (Hloop : forall w1 s1,
    let g := match @grpc_frame_loop World grpc svc0 sample_rate w1 s1
                                    false None with
             | (w2, s2, None) => (store svc0 session_id s2, w2, GrpcRaises)
             | (w2, s2, Some (c, sp)) =>
                 (store svc0 session_id s2, w2,
                  GrpcReturns (VADResponse.mk c (voice_stop s2) sp))
             end in
    let h := match @frame_loop World http svc0 sample_rate w1 s1
                               false None with
             | (w2, s2, None) => (store svc0 session_id s2, w2, RaisesHTTP500)
             | (w2, s2, Some (c, sp)) =>
                 (store svc0 session_id (set_voice_stop false s2), w2,
                  Returns (VADResponse.mk c (voice_stop s2) sp))
             end in
    g.1.2 = h.1.2 /\
    match g.2, h.2 with
    | GrpcReturns rg, Returns rh =>
        rg = rh /\
        exists s,
          sessions g.1.1 !! session_id = Some s /\
          sessions h.1.1 !! session_id
          = Some (if VADResponse.voice_stop rh then set_voice_stop false s
                  else s)
    | GrpcRaises, RaisesHTTP500 => g.1.1 = h.1.1
    | _, _ => False
    end).
  { intros w1 s1. rewrite grpc_frame_loop_agrees.
    destruct (@frame_loop World http svc0 sample_rate w1 s1 false None)
      as [[w2 s2] [[c sp]|]]; cbn [fst snd]; [|done].
    split; [done|]. split; [done|]. exists s2.
    rewrite !lookup_store. split; [done|]. cbn [VADResponse.voice_stop].
    destruct s2 as [? ? ? ? ? []]; done. }
  destruct (String.eqb _ _).
  - rewrite same_opus_decode.
    destruct (@opus_decode World http w audio_data) as [w1 [pcm|]];
      [apply Hloop|].
    cbn. split; [done|]. split; [done|]. exists s0.
    split; apply lookup_insert_eq.
  - apply Hloop.
Qed.

End TwoServices.


(** *** Cutting the stream into calls, with a clock that moves *)

Section ClockIndependence.
Context {World : Type} {collab : Collaborators World}.

(** [related a b]: two states of the collaborators in which the scorer
    answers alike, now and after any further scoring and clock reading;
    the clock itself is free to differ. *)
Variable related : World -> World -> Prop.
Variable sample_rate : Z.

Hypothesis related_model_call : forall a b chunk,
  related a b ->
  (model_call a chunk sample_rate).2 = (model_call b chunk sample_rate).2 /\
  related (model_call a chunk sample_rate).1 (model_call b chunk sample_rate).1.

Hypothesis related_time_ms : forall a b,
  related a b -> related (time_ms a).1 (time_ms b).1.

Lemma endpoint_check_related svc a b s t c :
  related a b -> same_but_time s t ->
  related (endpoint_check svc a s c).1 (endpoint_check svc b t c).1 /\
  same_but_time (endpoint_check svc a s c).2 (endpoint_check svc b t c).2.
Proof.
  intros HR (Hb & Hw & Hh & Hl). unfold endpoint_check. rewrite Hh.
  destruct (have_voice t && negb c); [|by repeat split].
  pose proof (related_time_ms a b HR) as HR1.
  destruct (time_ms a) as [a1 ta], (time_ms b) as [b1 tb]. cbn in HR1.
  destruct (Qgt_bool (last_activity_time s) 0);
    [destruct (Qle_bool _ (ta - _))|];
    (destruct (Qgt_bool (last_activity_time t) 0);
     [destruct (Qle_bool _ (tb - _))|]); by repeat split.
Qed.

Lemma update_state_related a b s t c :
  related a b -> same_but_time s t ->
  related (update_state a s c).1 (update_state b t c).1 /\
  same_but_time (update_state a s c).2 (update_state b t c).2.
Proof.
  intros HR (Hb & Hw & Hh & Hl). unfold update_state.
  destruct c; [|by repeat split].
  pose proof (related_time_ms a b HR) as HR1.
  destruct (time_ms a) as [a1 ta], (time_ms b) as [b1 tb].
  by repeat split.
Qed.

(** A frame is scored, classified and voted alike whatever the clock
    shows: only the activity time and the end-of-speech flag can differ. *)
Lemma process_frame_related svc a b s t :
  related a b -> same_but_time s t ->
  related (process_frame svc sample_rate a s).1.1
          (process_frame svc sample_rate b t).1.1 /\
  same_but_time (process_frame svc sample_rate a s).1.2
                (process_frame svc sample_rate b t).1.2 /\
  (process_frame svc sample_rate a s).2 = (process_frame svc sample_rate b t).2.
Proof.
  intros HR Hst. pose proof Hst as (Hb & Hw & Hh & Hl).
  unfold process_frame. rewrite Hb.
  pose proof (related_model_call a b (take frame_size_bytes (audio_buffer t)) HR)
    as [Ha HR1].
  destruct (model_call a _ sample_rate) as [a1 pa].
  destruct (model_call b _ sample_rate) as [b1 pb].
  cbn in Ha, HR1. subst pb. destruct pa as [p|]; [|by repeat split].
  unfold classify_frame. cbn zeta.
  cbn [voice_window last_is_voice set_voice_window set_last_is_voice
       set_audio_buffer].
  rewrite Hw, Hl.
  set (d := classify svc p (last_is_voice t)).
  set (c := vote svc (push_window d (voice_window t))).
  set (s1 := set_voice_window _ (set_last_is_voice d (set_audio_buffer _ s))).
  set (t1 := set_voice_window _ (set_last_is_voice d (set_audio_buffer _ t))).
  assert (Hst1 : same_but_time s1 t1) by (by repeat split).
  pose proof (endpoint_check_related svc a1 b1 s1 t1 c HR1 Hst1) as [HR2 Hst2].
  destruct (endpoint_check svc a1 s1 c) as [a2 s2].
  destruct (endpoint_check svc b1 t1 c) as [b2 t2]. cbn in HR2, Hst2.
  pose proof (update_state_related a2 b2 s2 t2 c HR2 Hst2) as [HR3 Hst3].
  destruct (update_state a2 s2 c) as [a3 s3].
  destruct (update_state b2 t2 c) as [b3 t3]. cbn in HR3, Hst3.
  cbn [fst snd]. auto.
Qed.

Lemma frame_loop_related svc a s chv sp b t chv' sp' :
  related a b -> same_but_time s t ->
  let x := frame_loop svc sample_rate a s chv sp in
  let y := frame_loop svc sample_rate b t chv' sp' in
  related x.1.1 y.1.1 /\ same_but_time x.1.2 y.1.2 /\
  (x.2 = None <-> y.2 = None) /\
  (chv = chv' \/ frame_size_bytes <= length (audio_buffer s) ->
   fst <$> x.2 = fst <$> y.2).
Proof.
  revert b t chv' sp'.
  apply (frame_loop_induction svc sample_rate (fun a s chv sp res =>
    forall b t chv' sp', related a b -> same_but_time s t ->
      related res.1.1 (frame_loop svc sample_rate b t chv' sp').1.1 /\
      same_but_time res.1.2 (frame_loop svc sample_rate b t chv' sp').1.2 /\
      (res.2 = None <-> (frame_loop svc sample_rate b t chv' sp').2 = None) /\
      (chv = chv' \/ frame_size_bytes <= length (audio_buffer s) ->
       fst <$> res.2 = fst <$> (frame_loop svc sample_rate b t chv' sp').2))).
  - intros a0 s0 chv0 sp0 Hlt b t chv' sp' HR Hst.
    pose proof Hst as (Hb & _).
    rewrite frame_loop_no_frame by (by rewrite <- Hb). cbn [fst snd].
    split; [exact HR|]. split; [exact Hst|]. split; [done|].
    intros [->|Hle]; [done|lia].
  - intros a0 s0 chv0 sp0 a1 s1 Hlen Hp b t chv' sp' HR Hst.
    pose proof Hst as (Hb & _).
    pose proof (process_frame_related svc a0 b s0 t HR Hst) as (Hw & Hs & Hr).
    rewrite Hp in Hw, Hs, Hr. cbn [fst snd] in Hw, Hs, Hr.
    rewrite (frame_loop_eq svc sample_rate b t), <- Hb.
    apply Nat.leb_le in Hlen. rewrite Hlen.
    destruct (process_frame svc sample_rate b t) as [[b2 t2] [[c2 p2]|]];
      cbn [fst snd] in *; [done|].
    split; [exact Hw|]. split; [exact Hs|]. by split.
  - intros a0 s0 chv0 sp0 a1 s1 c p Hlen Hp sp1 IH b t chv' sp' HR Hst.
    pose proof Hst as (Hb & _).
    pose proof (process_frame_related svc a0 b s0 t HR Hst) as (Hw & Hs & Hr).
    rewrite Hp in Hw, Hs, Hr. cbn [fst snd] in Hw, Hs, Hr.
    rewrite (frame_loop_eq svc sample_rate b t), <- Hb.
    apply Nat.leb_le in Hlen. rewrite Hlen.
    destruct (process_frame svc sample_rate b t) as [[b2 t2] [[c2 p2]|]];
      cbn [fst snd] in *; [|done].
    injection Hr as <- <-.
    destruct (IH b2 t2 c (match sp' with None => Some p | Some _ => sp' end)
                 Hw Hs) as (H1 & H2 & H3 & H4).
    split; [exact H1|]. split; [exact H2|]. split; [exact H3|].
    intros _. apply H4. by left.
Qed.

(** X12. How the stream is cut into calls does not matter to what the
    service hears.  Let two calls in a row for one session (format other
    than opus) both return, the second starting with the scorer where the
    first left it and the clock anywhere.  Then one call with the two
    chunks joined returns too, and it leaves the session with the same
    buffer, window, [last_is_voice] and [have_voice] (only the recorded
    activity time can differ), the stored [voice_stop] down in both, the
    other sessions alike, and the scorer in a related state; if the second
    call drained a frame, the joined call also reports the same
    [have_voice]. *)
Theorem cutting_the_stream (svc svc1 svc2 : SileroVADService)
    (w w1 w1' w2 : World) (chunk1 chunk2 : list byte) (audio_format : string)
    (channels : Z) (session_id : string) (r1 r2 : VADResponse.t) :
  lower audio_format <> "opus"%string ->
  process_audio svc w chunk1 audio_format sample_rate channels session_id
  = (svc1, w1, Returns r1) ->
  related w1 w1' ->
  process_audio svc1 w1' chunk2 audio_format sample_rate channels session_id
  = (svc2, w2, Returns r2) ->
  exists svcJ wJ r sJ s2,
    process_audio svc w (chunk1 ++ chunk2) audio_format sample_rate channels
                  session_id
    = (svcJ, wJ, Returns r) /\
    related wJ w2 /\
    sessions svcJ !! session_id = Some sJ /\
    sessions svc2 !! session_id = Some s2 /\
    audio_buffer sJ = audio_buffer s2 /\
    voice_window sJ = voice_window s2 /\
    have_voice sJ = have_voice s2 /\
    last_is_voice sJ = last_is_voice s2 /\
    voice_stop sJ = false /\ voice_stop s2 = false /\
    (forall other_id, other_id <> session_id ->
       sessions svcJ !! other_id = sessions svc2 !! other_id) /\
    (VADResponse.speech_prob r2 <> None ->
     VADResponse.have_voice r = VADResponse.have_voice r2).
Proof.
  intros Hf H1 HR H2.
  rewrite process_audio_eq in H1. rewrite process_audio_eq in H2.
  rewrite process_audio_eq. cbn zeta in *.
  rewrite buffer_input_pcm in H1 by done.
  rewrite buffer_input_pcm in H2 by done.
  rewrite buffer_input_pcm by done.
  set (s0 := default fresh_session (sessions svc !! session_id)) in *.
  set (svc0 := set_sessions (<[session_id := s0]> (sessions svc)) svc) in *.
  set (sB := set_audio_buffer (audio_buffer s0 ++ chunk1) s0) in *.
  destruct (frame_loop svc0 sample_rate w sB false None)
    as [[wa sa] [[ca spa]|]] eqn:E1; [|done].
  injection H1 as <- <- <-.
  rewrite lookup_store in H2. cbn [default from_option id] in H2.
  set (X := set_voice_stop false sa) in *.
  set (svcX := set_sessions _ (store svc0 session_id X)) in *.
  rewrite (frame_loop_config svcX svc0) in H2 by (by repeat split).
  destruct (frame_loop svc0 sample_rate w1'
              (set_audio_buffer (audio_buffer X ++ chunk2) X) false None)
    as [[wb sb] [[cb spb]|]] eqn:E2; [|done].
  injection H2 as <- <- <-.
  rewrite app_assoc.
  change (set_audio_buffer ((audio_buffer s0 ++ chunk1) ++ chunk2) s0)
    with (set_audio_buffer (audio_buffer sB ++ chunk2) sB).
  rewrite frame_loop_append, E1.
  assert (Hst : same_but_time
                  (set_audio_buffer (audio_buffer sa ++ chunk2) sa)
                  (set_audio_buffer (audio_buffer X ++ chunk2) X))
    by (by repeat split).
  pose proof (frame_loop_related svc0 wa _ ca spa w1' _ false None HR Hst)
    as (Hw & Hs & Hn & Hc).
  rewrite E2 in Hw, Hs, Hn, Hc.
  destruct (frame_loop svc0 sample_rate wa
              (set_audio_buffer (audio_buffer sa ++ chunk2) sa) ca spa)
    as [[wc sc] [[cc spc]|]]; cbn [fst snd] in *.
  2:{ destruct Hn as [Hn _]. by specialize (Hn eq_refl). }
  destruct Hs as (Hs1 & Hs2 & Hs3 & Hs4).
  exists (store svc0 session_id (set_voice_stop false sc)), wc,
         (VADResponse.mk cc (voice_stop sc) spc),
         (set_voice_stop false sc), (set_voice_stop false sb).
  split; [done|]. split; [exact Hw|].
  split; [apply lookup_store|]. split; [apply lookup_store|].
  cbn [audio_buffer voice_window have_voice last_is_voice voice_stop
       set_voice_stop].
  do 6 (split; [done|]). split.
  - intros other_id Hne. unfold store, svcX, store.
    cbn [sessions set_sessions]. by rewrite !lookup_insert_ne.
  - cbn. intros Hsp.
    assert (Hle : frame_size_bytes <= length (audio_buffer X ++ chunk2)).
    { apply frame_loop_speech_prob in E2.
      cbn [audio_buffer set_audio_buffer] in E2.
      destruct (frame_size_bytes <=? length (audio_buffer X ++ chunk2)) eqn:E;
        [by apply Nat.leb_le in E|done]. }
    assert (Hfst : fst <$> Some (cc, spc) = fst <$> Some (cb, spb))
      by (apply Hc; right; exact Hle).
    by injection Hfst.
Qed.

End ClockIndependence.

(** *** The further properties at concrete inputs *)

(** X1 on a call for session ["b"] of the service of [voiced], which holds
    session ["a"]. *)
Lemma other_sessions_untouched_witness :
  "a"%string <> "b"%string /\
  let svc' := (process_audio voiced.1.1 (mkSim 2000 [Some 0%Q] true [])
                             (zeros 1024) "pcm" 16000 1 "b").1.1 in
  sessions svc' !! "a"%string = sessions voiced.1.1 !! "a"%string /\
  is_Some (sessions svc' !! "b"%string).
Proof.
  assert (Hne : "a"%string <> "b"%string) by discriminate.
  split; [exact Hne|].
  exact (other_sessions_untouched voiced.1.1 (mkSim 2000 [Some 0%Q] true [])
           (zeros 1024) "pcm" 16000 1 "b" "a" Hne).
Defined.

(** X3 on the service of [voiced] and the same service with one more
    session. *)
Lemma call_reads_own_session_witness :
  let svc1 := voiced.1.1 in
  let svc2 := set_sessions (<["b"%string := fresh_session]> (sessions voiced.1.1))
                           voiced.1.1 in
  let w := mkSim 2000 [Some 0%Q] true [] in
  same_config svc1 svc2 /\
  opus_decoder svc1 = opus_decoder svc2 /\
  sessions svc1 !! "a"%string = sessions svc2 !! "a"%string /\
  let r1 := process_audio svc1 w (zeros 1024) "pcm" 16000 1 "a" in
  let r2 := process_audio svc2 w (zeros 1024) "pcm" 16000 1 "a" in
  r1.2 = r2.2 /\ r1.1.2 = r2.1.2 /\
  sessions r1.1.1 !! "a"%string = sessions r2.1.1 !! "a"%string.
Proof.
  intros svc1 svc2 w.
  assert (Hc : same_config svc1 svc2) by (repeat split; reflexivity).
  assert (Hd : opus_decoder svc1 = opus_decoder svc2) by reflexivity.
  assert (Hs : sessions svc1 !! "a"%string = sessions svc2 !! "a"%string)
    by (vm_compute; reflexivity).
  split; [exact Hc|]. split; [exact Hd|]. split; [exact Hs|].
  exact (call_reads_own_session svc1 svc2 w (zeros 1024) "pcm" 16000 1 "a"
           Hc Hd Hs).
Defined.

(** X7 on [first_call]: 3200 bytes, three frames taken, 128 bytes kept. *)
Lemma buffer_accounting_witness :
  lower "pcm" <> "opus"%string /\
  process_audio default_service (mkSim 1000 (repeat (Some 0%Q) 3) true [])
                (zeros 3200) "pcm" 16000 1 "a"
  = (first_call.1.1, first_call.1.2,
     Returns (VADResponse.mk false false (Some 0%Q))) /\
  let s0 := default fresh_session (sessions default_service !! "a"%string) in
  let stream := audio_buffer s0 ++ zeros 3200 in
  exists s',
    sessions first_call.1.1 !! "a"%string = Some s' /\
    audio_buffer s'
    = drop (frame_size_bytes * (length stream / frame_size_bytes)) stream /\
    length (audio_buffer s') = length stream mod frame_size_bytes.
Proof.
  assert (Hf : lower "pcm" <> "opus"%string) by (vm_compute; discriminate).
  assert (Hp : process_audio default_service
                 (mkSim 1000 (repeat (Some 0%Q) 3) true [])
                 (zeros 3200) "pcm" 16000 1 "a"
               = (first_call.1.1, first_call.1.2,
                  Returns (VADResponse.mk false false (Some 0%Q))))
    by (vm_compute; reflexivity).
  split; [exact Hf|]. split; [exact Hp|].
  exact (buffer_accounting default_service first_call.1.1
           (mkSim 1000 (repeat (Some 0%Q) 3) true []) first_call.1.2
           (zeros 3200) "pcm" 16000 1 "a" _ Hf Hp).
Defined.

(** X8 on the call of [voiced]: the probability is the 0.9 of the first
    frame. *)
Lemma speech_prob_first_frame_witness :
  let w := mkSim 1000 (repeat (Some (9 # 10)%Q) 3) true [] in
  lower "pcm" <> "opus"%string /\
  process_audio default_service w (zeros 3072) "pcm" 16000 1 "a"
  = (voiced.1.1, voiced.1.2,
     Returns (VADResponse.mk true false (Some (9 # 10)%Q))) /\
  let s0 := default fresh_session (sessions default_service !! "a"%string) in
  let stream := audio_buffer s0 ++ zeros 3072 in
  (length stream < frame_size_bytes ->
   VADResponse.speech_prob (VADResponse.mk true false (Some (9 # 10)%Q))
   = None) /\
  (frame_size_bytes <= length stream ->
   exists p,
     VADResponse.speech_prob (VADResponse.mk true false (Some (9 # 10)%Q))
     = Some p /\
     (model_call w (take frame_size_bytes stream) 16000).2 = Some p).
Proof.
  intros w.
  assert (Hf : lower "pcm" <> "opus"%string) by (vm_compute; discriminate).
  assert (Hp : process_audio default_service w (zeros 3072) "pcm" 16000 1 "a"
               = (voiced.1.1, voiced.1.2,
                  Returns (VADResponse.mk true false (Some (9 # 10)%Q))))
    by (vm_compute; reflexivity).
  split; [exact Hf|]. split; [exact Hp|].
  exact (speech_prob_first_frame default_service voiced.1.1 w voiced.1.2
           (zeros 3072) "pcm" 16000 1 "a" _ Hf Hp).
Defined.

(** X9 on the frame that arrives at 5000 ms for a session that held voice
    at 1320 ms. *)
Lemma endpoint_raised_only_after_voice_witness :
  let s := mkSession (zeros 1024) ([true; true; true] ++ repeat false 7)
                     true false 1320 false in
  let s' := mkSession [] ([true; true] ++ repeat false 8)
                      false false 1320 true in
  let w := mkSim 5000 [Some 0%Q] true [] in
  let w' := mkSim 5032 [] true [] in
  process_frame default_service 16000 w s = (w', s', Some (false, 0%Q)) /\
  voice_stop s = false /\
  voice_stop s' = true /\
  have_voice s = true /\ false = false /\ have_voice s' = false /\
  (0 < last_activity_time s)%Q.
Proof.
  intros s s' w w'.
  assert (Hp : process_frame default_service 16000 w s
               = (w', s', Some (false, 0%Q))) by (vm_compute; reflexivity).
  assert (H0 : voice_stop s = false) by reflexivity.
  assert (H1 : voice_stop s' = true) by reflexivity.
  split; [exact Hp|]. split; [exact H0|]. split; [exact H1|].
  exact (endpoint_raised_only_after_voice default_service 16000 w w' s s'
           false 0%Q Hp H0 H1).
Defined.

(** X10 on the service after the call of [voiced]. *)
Lemma stored_sessions_invariant_witness :
  let w := mkSim 1000 (repeat (Some (9 # 10)%Q) 3) true [] in
  let svc := (process_audio default_service w (zeros 3072) "pcm" 16000 1
                            "a").1.1 in
  let s := mkSession [] [true; true; true] true true 1096 false in
  @reachable Sim sim_collaborators svc /\
  sessions svc !! "a"%string = Some s /\
  (length (voice_window s) <= 10 /\
   (voice_window s = [] /\ last_is_voice s = false \/
    last (voice_window s) = Some (last_is_voice s)) /\
   (have_voice s = true -> voice_stop s = false) /\
   (have_voice s = true ->
    (frame_window_threshold svc
     <= Z.of_nat (count_true (voice_window s)))%Z)).
Proof.
  intros w svc s.
  assert (Hr : @reachable Sim sim_collaborators svc)
    by exact (reachable_call default_service w (zeros 3072) "pcm" 16000 1 "a"
                (reachable_init default_service eq_refl)).
  assert (Hl : sessions svc !! "a"%string = Some s)
    by (vm_compute; reflexivity).
  split; [exact Hr|]. split; [exact Hl|].
  exact (stored_sessions_invariant svc "a" s Hr Hl).
Defined.

(** X11 on the call of [voiced], which reports voice. *)
Lemma reported_voice_is_stored_witness :
  let w := mkSim 1000 (repeat (Some (9 # 10)%Q) 3) true [] in
  let r := VADResponse.mk true false (Some (9 # 10)%Q) in
  @reachable Sim sim_collaborators default_service /\
  process_audio default_service w (zeros 3072) "pcm" 16000 1 "a"
  = (voiced.1.1, voiced.1.2, Returns r) /\
  VADResponse.have_voice r = true /\
  exists s',
    sessions voiced.1.1 !! "a"%string = Some s' /\
    have_voice s' = true /\ voice_stop s' = false /\
    (frame_window_threshold default_service
     <= Z.of_nat (count_true (voice_window s')))%Z.
Proof.
  intros w r.
  assert (Hr : @reachable Sim sim_collaborators default_service)
    by exact (reachable_init default_service eq_refl).
  assert (Hp : process_audio default_service w (zeros 3072) "pcm" 16000 1 "a"
               = (voiced.1.1, voiced.1.2, Returns r))
    by (vm_compute; reflexivity).
  assert (Hv : VADResponse.have_voice r = true) by reflexivity.
  split; [exact Hr|]. split; [exact Hp|]. split; [exact Hv|].
  exact (reported_voice_is_stored default_service voiced.1.1 w voiced.1.2
           (zeros 3072) "pcm" 16000 1 "a" r Hr Hp Hv).
Defined.

(** X13 on the call of [voiced]. *)
Lemma response_matches_state_witness :
  let w := mkSim 1000 (repeat (Some (9 # 10)%Q) 3) true [] in
  let r := VADResponse.mk true false (Some (9 # 10)%Q) in
  lower "pcm" <> "opus"%string /\
  process_audio default_service w (zeros 3072) "pcm" 16000 1 "a"
  = (voiced.1.1, voiced.1.2, Returns r) /\
  frame_size_bytes
  <= length (audio_buffer
               (default fresh_session (sessions default_service !! "a"%string))
             ++ zeros 3072) /\
  exists s',
    sessions voiced.1.1 !! "a"%string = Some s' /\
    have_voice s' = VADResponse.have_voice r /\
    voice_stop s' = false.
Proof.
  intros w r.
  assert (Hf : lower "pcm" <> "opus"%string) by (vm_compute; discriminate).
  assert (Hp : process_audio default_service w (zeros 3072) "pcm" 16000 1 "a"
               = (voiced.1.1, voiced.1.2, Returns r))
    by (vm_compute; reflexivity).
  assert (Hlen : frame_size_bytes
                 <= length (audio_buffer
                              (default fresh_session
                                 (sessions default_service !! "a"%string))
                            ++ zeros 3072))
    by (apply Nat.leb_le; vm_compute; reflexivity).
  split; [exact Hf|]. split; [exact Hp|]. split; [exact Hlen|].
  exact (response_matches_state default_service voiced.1.1 w voiced.1.2
           (zeros 3072) "pcm" 16000 1 "a" r Hf Hp Hlen).
Defined.

(** X14 on a first opus call whose packet does not decode: the decoder is
    built all the same. *)
Lemma decoder_built_on_demand_witness :
  let w := mkSim 1000 [] true [None] in
  lower "opus" = "opus"%string /\
  opus_decoder default_service = false /\
  opus_decoder (process_audio default_service w (zeros 40) "opus" 16000 1
                              "a").1.1
  = (new_decoder w).2.
Proof.
  intros w.
  assert (Hf : lower "opus" = "opus"%string) by reflexivity.
  assert (Hd : opus_decoder default_service = false) by reflexivity.
  split; [exact Hf|]. split; [exact Hd|].
  exact (decoder_built_on_demand default_service w (zeros 40) "opus" 16000 1
           "a" Hf Hd).
Defined.

(** X15 on three voiced frames for a new session, the gRPC service with
    the collaborators [sim_grpc_collaborators]. *)
Lemma grpc_against_http_witness :
  let w := mkSim 1000 (repeat (Some (9 # 10)%Q) 3) true [] in
  (forall w chunk,
     @model_call Sim sim_grpc_collaborators w chunk 16000
     = @model_call Sim sim_collaborators w chunk 16000) /\
  (forall w, @time_ms Sim sim_grpc_collaborators w
             = @time_ms Sim sim_collaborators w) /\
  (forall w data,
     @opus_decode Sim sim_grpc_collaborators w data
     = @opus_decode Sim sim_collaborators w data) /\
  opus_decoder grpc_service = true /\
  let g := @grpc_process_audio Sim sim_grpc_collaborators grpc_service w
                               (zeros 3072) "pcm" 16000 1 "a" in
  let h := @process_audio Sim sim_collaborators grpc_service w
                          (zeros 3072) "pcm" 16000 1 "a" in
  g.1.2 = h.1.2 /\
  match g.2, h.2 with
  | GrpcReturns rg, Returns rh =>
      rg = rh /\
      exists s,
        sessions g.1.1 !! "a"%string = Some s /\
        sessions h.1.1 !! "a"%string
        = Some (if VADResponse.voice_stop rh then set_voice_stop false s
                else s)
  | GrpcRaises, RaisesHTTP500 => g.1.1 = h.1.1
  | _, _ => False
  end.
Proof.
  intros w.
  assert (Hm : forall w chunk,
             @model_call Sim sim_grpc_collaborators w chunk 16000
             = @model_call Sim sim_collaborators w chunk 16000)
    by reflexivity.
  assert (Ht : forall w, @time_ms Sim sim_grpc_collaborators w
                         = @time_ms Sim sim_collaborators w)
    by reflexivity.
  assert (Ho : forall w data,
             @opus_decode Sim sim_grpc_collaborators w data
             = @opus_decode Sim sim_collaborators w data)
    by reflexivity.
  assert (Hd : opus_decoder grpc_service = true) by reflexivity.
  split; [exact Hm|]. split; [exact Ht|]. split; [exact Ho|].
  split; [exact Hd|].
  exact (grpc_against_http sim_grpc_collaborators sim_collaborators 16000
           Hm Ht Ho grpc_service w (zeros 3072) "pcm" 1 "a" Hd).
Defined.

(** X16 on [grpc_poll]: the flag that is up is reported and stays up. *)
Lemma grpc_flag_stays_witness :
  let r := VADResponse.mk false true None in
  lower "pcm" <> "opus"%string /\
  grpc_process_audio pending_call.1.1 pending_call.1.2 (zeros 100)
                     "pcm" 16000 1 "a"
  = (grpc_poll.1.1, grpc_poll.1.2, GrpcReturns r) /\
  let s0 := default fresh_session (sessions pending_call.1.1 !! "a"%string) in
  (exists s', sessions grpc_poll.1.1 !! "a"%string = Some s' /\
              voice_stop s' = VADResponse.voice_stop r) /\
  (length (audio_buffer s0 ++ zeros 100) < frame_size_bytes ->
   VADResponse.voice_stop r = voice_stop s0 /\
   sessions grpc_poll.1.1 !! "a"%string
   = Some (set_audio_buffer (audio_buffer s0 ++ zeros 100) s0)).
Proof.
  intros r.
  assert (Hf : lower "pcm" <> "opus"%string) by (vm_compute; discriminate).
  assert (Hp : grpc_process_audio pending_call.1.1 pending_call.1.2 (zeros 100)
                                  "pcm" 16000 1 "a"
               = (grpc_poll.1.1, grpc_poll.1.2, GrpcReturns r))
    by (vm_compute; reflexivity).
  split; [exact Hf|]. split; [exact Hp|].
  exact (grpc_flag_stays pending_call.1.1 grpc_poll.1.1 pending_call.1.2
           grpc_poll.1.2 (zeros 100) "pcm" 16000 1 "a" r Hf Hp).
Defined.

(** X12 on a stream of three voiced frames cut after 1500 bytes, the second
    call made when the clock shows 5000 ms: the session ends the same but
    for the activity time, 1096 in one call and 5064 in two. *)
Lemma cutting_the_stream_witness :
  let related := fun a b : Sim => sim_scores a = sim_scores b in
  let r1 := VADResponse.mk false false (Some (9 # 10)%Q) in
  let r2 := VADResponse.mk true false (Some (9 # 10)%Q) in
  lower "pcm" <> "opus"%string /\
  process_audio default_service cut_world (zeros 1500) "pcm" 16000 1 "a"
  = (cut1.1.1, cut1.1.2, Returns r1) /\
  related cut1.1.2 cut_late_world /\
  process_audio cut1.1.1 cut_late_world (zeros 1600) "pcm" 16000 1 "a"
  = (cut2.1.1, cut2.1.2, Returns r2) /\
  last_activity_time <$> sessions cut_joined.1.1 !! "a"%string = Some 1096%Q /\
  last_activity_time <$> sessions cut2.1.1 !! "a"%string = Some 5064%Q /\
  exists svcJ wJ r sJ s2,
    process_audio default_service cut_world (zeros 1500 ++ zeros 1600) "pcm"
                  16000 1 "a"
    = (svcJ, wJ, Returns r) /\
    related wJ cut2.1.2 /\
    sessions svcJ !! "a"%string = Some sJ /\
    sessions cut2.1.1 !! "a"%string = Some s2 /\
    audio_buffer sJ = audio_buffer s2 /\
    voice_window sJ = voice_window s2 /\
    have_voice sJ = have_voice s2 /\
    last_is_voice sJ = last_is_voice s2 /\
    voice_stop sJ = false /\ voice_stop s2 = false /\
    (forall other_id, other_id <> "a"%string ->
       sessions svcJ !! other_id = sessions cut2.1.1 !! other_id) /\
    (VADResponse.speech_prob r2 <> None ->
     VADResponse.have_voice r = VADResponse.have_voice r2).
Proof.
  intros related r1 r2.
  assert (Hm : forall (a b : Sim) (chunk : list byte),
             related a b ->
             (model_call a chunk 16000).2 = (model_call b chunk 16000).2 /\
             related (model_call a chunk 16000).1 (model_call b chunk 16000).1).
  { intros a b chunk H. unfold related in *. cbn. rewrite H.
    destruct (sim_scores b) eqn:E; cbn; split; congruence. }
  assert (Ht : forall a b : Sim,
             related a b -> related (time_ms a).1 (time_ms b).1)
    by (intros a b H; exact H).
  assert (Hf : lower "pcm" <> "opus"%string) by (vm_compute; discriminate).
  assert (H1 : process_audio default_service cut_world (zeros 1500) "pcm"
                 16000 1 "a" = (cut1.1.1, cut1.1.2, Returns r1))
    by (vm_compute; reflexivity).
  assert (HR : related cut1.1.2 cut_late_world) by (vm_compute; reflexivity).
  assert (H2 : process_audio cut1.1.1 cut_late_world (zeros 1600) "pcm"
                 16000 1 "a" = (cut2.1.1, cut2.1.2, Returns r2))
    by (vm_compute; reflexivity).
  split; [exact Hf|]. split; [exact H1|]. split; [exact HR|].
  split; [exact H2|].
  split; [vm_compute; reflexivity|]. split; [vm_compute; reflexivity|].
  exact (cutting_the_stream related 16000 Hm Ht default_service cut1.1.1
           cut2.1.1 cut_world cut1.1.2 cut_late_world cut2.1.2
           (zeros 1500) (zeros 1600) "pcm" 1 "a" r1 r2 Hf H1 HR H2).
Defined.
